(** * NepJol article fetcher: a shallow embedding of [fetch.py]

    The script searches the NepJol journal aggregator, scrapes the result
    page, follows an article to its PDF viewer page and download link, and
    streams the PDF to disk.  This development embeds its functions
    ([search_nepjol], [display_results], [save_to_file], [find_pdf_link],
    [download_file]) and its main block with the selection loop, and proves
    properties of them.  [setup_logging] is left out: it depends on the
    clock and on the creation of directories.

    Modelling conventions.
    - A Python [str] is a Rocq [string]; every [ascii] stands for one
      character, so the embedding covers text whose code points are below
      256.  The character classes ([str.isspace], [str.isalnum]) are the
      Unicode ones restricted to that range.
    - Everything outside the script is gathered in a record [World]: the
      answers of [requests.get], the document tree built by
      [BeautifulSoup(text, "html.parser")], whether [open] succeeds, and what
      the rest of the system does to the files between two statements.
    - Raising is modelled by a result type, and the effects of a function
      (files, log records, console lines) by explicit state passing; the
      two are combined in the monad [M].
    - The state has three parts: [files], the files that the script opens
      itself; [log], the records that the logger sends to the run's log file
      and echoes on standard error; [console], what [print] writes on
      standard output.  [file_system] puts the log file beside the others.
    - A log record keeps the level and the format string of the logger call
      as it is written in the source, with its escapes; the interpolated
      values are not expanded.  The same holds for the printed texts.
    - The sanitiser of file names is also given over all code points, with
      the Unicode tables as parameters.
    - The lines typed by the user are a list; a program that asks for a
      line beyond the list is waiting for it. *)

From Stdlib Require Import ZArith Ascii String List Lia Bool.
From stdpp Require Import base gmap strings list.

Local Open Scope Z_scope.
Local Open Scope nat_scope.

(** ** Python string operations *)

Definition code (c : ascii) : nat := nat_of_ascii c.

Definition between (lo hi n : nat) : bool := (lo <=? n) && (n <=? hi).

(** [str.isspace] for one character (code points 9-13, 28-32, 133, 160). *)
Definition isspace (c : ascii) : bool :=
  let n := code c in
  between 9 13 n || between 28 32 n || (n =? 133) || (n =? 160).

(** [str.isalnum] for one character. *)
Definition isalnum (c : ascii) : bool :=
  let n := code c in
  between 48 57 n || between 65 90 n || between 97 122 n
  || (n =? 170) || between 178 179 n || (n =? 181) || between 185 186 n
  || between 188 190 n || between 192 214 n || between 216 246 n
  || between 248 255 n.

Definition isascii (c : ascii) : bool := code c <? 128.

(** [c.isascii() and c.isalpha()] *)
Definition isascii_alpha (c : ascii) : bool :=
  let n := code c in between 65 90 n || between 97 122 n.

Definition isdigit (c : ascii) : bool := between 48 57 (code c).

Definition ascii_lower (c : ascii) : ascii :=
  if between 65 90 (code c) then ascii_of_nat (code c + 32) else c.

Definition nonempty (s : string) : bool :=
  match s with EmptyString => false | _ => true end.

Fixpoint str_filter (p : ascii -> bool) (s : string) : string :=
  match s with
  | EmptyString => EmptyString
  | String c s' => if p c then String c (str_filter p s') else str_filter p s'
  end.

Fixpoint str_forallb (p : ascii -> bool) (s : string) : bool :=
  match s with
  | EmptyString => true
  | String c s' => p c && str_forallb p s'
  end.

Fixpoint str_map (f : ascii -> ascii) (s : string) : string :=
  match s with
  | EmptyString => EmptyString
  | String c s' => String (f c) (str_map f s')
  end.

(** [c in s] for a character [c]. *)
Fixpoint char_in (c : ascii) (s : string) : bool :=
  match s with
  | EmptyString => false
  | String d s' => Ascii.eqb c d || char_in c s'
  end.

(** [s.startswith(p)] *)
Fixpoint startswith (p s : string) : bool :=
  match p, s with
  | EmptyString, _ => true
  | String a p', String b s' => Ascii.eqb a b && startswith p' s'
  | String _ _, EmptyString => false
  end.

(** [sub in s] for strings. *)
Fixpoint str_contains (sub s : string) : bool :=
  startswith sub s ||
  match s with
  | EmptyString => false
  | String _ s' => str_contains sub s'
  end.

(** [s.lstrip(chars)] and [s.rstrip(chars)], the set of characters given as
    a predicate. *)
Fixpoint lstrip_by (p : ascii -> bool) (s : string) : string :=
  match s with
  | EmptyString => EmptyString
  | String c s' => if p c then lstrip_by p s' else s
  end.

Fixpoint rstrip_by (p : ascii -> bool) (s : string) : string :=
  match s with
  | EmptyString => EmptyString
  | String c s' =>
      match rstrip_by p s' with
      | EmptyString => if p c then EmptyString else String c EmptyString
      | r => String c r
      end
  end.

Definition strip_by (p : ascii -> bool) (s : string) : string :=
  rstrip_by p (lstrip_by p s).

(** [s.rstrip()] and [s.strip()] with no argument strip whitespace. *)
Definition rstrip : string -> string := rstrip_by isspace.
Definition strip : string -> string := strip_by isspace.

(** [s[:n]] and [s[n:]] *)
Fixpoint str_take (n : nat) (s : string) : string :=
  match n, s with
  | S n', String c s' => String c (str_take n' s')
  | _, _ => EmptyString
  end.

Fixpoint str_drop (n : nat) (s : string) : string :=
  match n, s with
  | S n', String _ s' => str_drop n' s'
  | _, _ => s
  end.

(** [s.find(c)]: the index of the first occurrence, [None] for -1. *)
Fixpoint str_find (c : ascii) (s : string) : option nat :=
  match s with
  | EmptyString => None
  | String d s' => if Ascii.eqb c d then Some 0 else S <$> str_find c s'
  end.

(** [s.find(c, start)] *)
Definition str_find_from (c : ascii) (start : nat) (s : string) : option nat :=
  (fun i => start + i) <$> str_find c (str_drop start s).

(** [s.rfind(c)] *)
Fixpoint str_rfind (c : ascii) (s : string) : option nat :=
  match s with
  | EmptyString => None
  | String d s' =>
      match str_rfind c s' with
      | Some i => Some (S i)
      | None => if Ascii.eqb c d then Some 0 else None
      end
  end.

(** [s.split(sep)] for a one-character separator. *)
Fixpoint str_split (sep : ascii) (s : string) : list string :=
  match s with
  | EmptyString => [EmptyString]
  | String c s' =>
      if Ascii.eqb c sep then EmptyString :: str_split sep s'
      else match str_split sep s' with
           | hd :: tl => String c hd :: tl
           | [] => [String c EmptyString]
           end
  end.

(** [s.split(sep, 1)] when [sep in s]: the text before and after the first
    separator. *)
Definition str_split1 (sep : ascii) (s : string) : string * string :=
  match str_find sep s with
  | Some i => (str_take i s, str_drop (S i) s)
  | None => (s, EmptyString)
  end.

(** [sep.join(l)] *)
Fixpoint str_join (sep : string) (l : list string) : string :=
  match l with
  | [] => EmptyString
  | [x] => x
  | x :: rest => x +:+ sep +:+ str_join sep rest
  end.

(** [re.findall(r"\S+", s)]: the maximal runs of non-whitespace. *)
Fixpoint nonwhitespace_runs (cur : string) (s : string) : list string :=
  match s with
  | EmptyString => if nonempty cur then [cur] else []
  | String c s' =>
      if isspace c
      then (if nonempty cur then [cur] else []) ++ nonwhitespace_runs EmptyString s'
      else nonwhitespace_runs (cur +:+ String c EmptyString) s'
  end.

(** The line feed, and the one-character string made of it. *)
Definition LF : ascii := "010"%char.
Definition nl : string := String LF EmptyString.

(** [str(n)] for a natural number: its decimal digits.  The script applies
    it to the positions in a list of results, which stay far below the 4300
    digits beyond which CPython 3.11 refuses the conversion. *)
Definition digit_char (d : nat) : ascii := ascii_of_nat (48 + d).

Fixpoint str_of_nat_aux (fuel n : nat) (acc : string) : string :=
  let acc' := String (digit_char (n mod 10)) acc in
  match fuel with
  | 0 => acc'
  | S fuel' => if n / 10 =? 0 then acc' else str_of_nat_aux fuel' (n / 10) acc'
  end.

Definition str_of_nat (n : nat) : string := str_of_nat_aux n n EmptyString.

(** ** Exceptions *)

(** The exception classes the script can meet.  The first four are
    [requests.RequestException] or subclasses of it; all of them are
    subclasses of [Exception]. *)
Inductive exn : Type :=
| RequestException (detail : string)
| ConnectionError
| Timeout
| HTTPError (status : Z)
| ValueError (detail : string)
| KeyError (key : string)
| OSError (detail : string).

Definition is_RequestException (e : exn) : bool :=
  match e with
  | RequestException _ | ConnectionError | Timeout | HTTPError _ => true
  | ValueError _ | KeyError _ | OSError _ => false
  end.

Inductive result (A : Type) : Type :=
| Ok (a : A)
| Raise (e : exn).
Arguments Ok {A} a.
Arguments Raise {A} e.

Definition result_bind {A B : Type} (r : result A) (k : A -> result B) : result B :=
  match r with
  | Ok a => k a
  | Raise e => Raise e
  end.

(** ** [urllib.parse] (CPython 3.11): [urlsplit], [urlparse], [urlunparse], [urljoin] *)

Section UrllibParse.

(** Two validations of [urlsplit] rest on the [ipaddress] and
    [unicodedata] modules; they are taken as oracles that tell whether the
    check returns normally.  [_check_bracketed_netloc] is consulted only
    for a netloc with both brackets, the NFKC test of [_checknetloc] only
    for a netloc that is not ASCII. *)
Variable check_bracketed_netloc : string -> bool.
Variable checknetloc_nfkc : string -> bool.

Definition uses_relative : list string :=
  [""; "ftp"; "http"; "gopher"; "nntp"; "imap"; "wais"; "file"; "https";
   "shttp"; "mms"; "prospero"; "rtsp"; "rtspu"; "sftp"; "svn"; "svn+ssh";
   "ws"; "wss"].

Definition uses_netloc : list string :=
  [""; "ftp"; "http"; "gopher"; "nntp"; "telnet"; "imap"; "wais"; "file";
   "mms"; "https"; "shttp"; "snews"; "prospero"; "rtsp"; "rtspu"; "rsync";
   "svn"; "svn+ssh"; "sftp"; "nfs"; "git"; "git+ssh"; "ws"; "wss"].

Definition uses_params : list string :=
  [""; "ftp"; "hdl"; "prospero"; "http"; "imap"; "https"; "shttp"; "rtsp";
   "rtspu"; "sip"; "sips"; "mms"; "sftp"; "tel"].

Definition str_in (s : string) (l : list string) : bool :=
  existsb (String.eqb s) l.

Definition scheme_chars : string :=
  "abcdefghijklmnopqrstuvwxyzABCDEFGHIJKLMNOPQRSTUVWXYZ0123456789+-.".

(** [_WHATWG_C0_CONTROL_OR_SPACE]: the code points 0 to 32. *)
Definition whatwg_c0_control_or_space (c : ascii) : bool := code c <=? 32.

(** [_UNSAFE_URL_BYTES_TO_REMOVE]: tab, carriage return, line feed. *)
Definition unsafe_url_byte (c : ascii) : bool :=
  (code c =? 9) || (code c =? 13) || (code c =? 10).

Definition remove_unsafe (s : string) : string :=
  str_filter (fun c => negb (unsafe_url_byte c)) s.

Definition splitnetloc (url : string) (start : nat) : string * string :=
  let delim :=
    fold_left
      (fun delim c =>
         match str_find_from c start url with
         | Some wdelim => Nat.min delim wdelim
         | None => delim
         end)
      ["/"%char; "?"%char; "#"%char] (String.length url) in
  (str_take (delim - start) (str_drop start url), str_drop delim url).

Definition checknetloc (netloc : string) : result unit :=
  if negb (nonempty netloc) || str_forallb isascii netloc then Ok tt
  else if checknetloc_nfkc netloc then Ok tt
  else Raise (ValueError "netloc contains invalid characters under NFKC normalization").

Record SplitResult : Type := mkSplit {
  s_scheme : string; s_netloc : string; s_path : string;
  s_query : string; s_fragment : string }.

Definition urlsplit (url0 scheme0 : string) : result SplitResult :=
  let url := lstrip_by whatwg_c0_control_or_space url0 in
  let scheme := strip_by whatwg_c0_control_or_space scheme0 in
  let url := remove_unsafe url in
  let scheme := remove_unsafe scheme in
  let '(scheme, url) :=
    match str_find ":" url, url with
    | Some (S i), String c0 _ =>
        if isascii_alpha c0 && str_forallb (fun c => char_in c scheme_chars) (str_take (S i) url)
        then (str_map ascii_lower (str_take (S i) url), str_drop (S (S i)) url)
        else (scheme, url)
    | _, _ => (scheme, url)
    end in
  result_bind
    (if String.eqb (str_take 2 url) "//" then
       let '(netloc, url) := splitnetloc url 2 in
       let lb := char_in "[" netloc in
       let rb := char_in "]" netloc in
       if (lb && negb rb) || (rb && negb lb) then Raise (ValueError "Invalid IPv6 URL")
       else if lb && rb && negb (check_bracketed_netloc netloc)
            then Raise (ValueError "Invalid IPv6 URL")
            else Ok (netloc, url)
     else Ok (EmptyString, url))
    (fun '(netloc, url) =>
       let '(url, fragment) :=
         if char_in "#" url then str_split1 "#" url else (url, EmptyString) in
       let '(url, query) :=
         if char_in "?" url then str_split1 "?" url else (url, EmptyString) in
       result_bind (checknetloc netloc)
         (fun _ => Ok (mkSplit scheme netloc url query fragment))).

Definition splitparams (url : string) : string * string :=
  let cut (i : option nat) :=
    match i with
    | Some i => (str_take i url, str_drop (S i) url)
    | None => (str_take (String.length url - 1) url, url)
    end in
  if char_in "/" url then
    match str_find_from ";" (default 0 (str_rfind "/" url)) url with
    | Some i => cut (Some i)
    | None => (url, EmptyString)
    end
  else cut (str_find ";" url).

Record ParseResult : Type := mkParse {
  p_scheme : string; p_netloc : string; p_path : string;
  p_params : string; p_query : string; p_fragment : string }.

Definition urlparse (url scheme : string) : result ParseResult :=
  result_bind (urlsplit url scheme)
    (fun sr =>
       let '(url, params) :=
         if str_in (s_scheme sr) uses_params && char_in ";" (s_path sr)
         then splitparams (s_path sr)
         else (s_path sr, EmptyString) in
       Ok (mkParse (s_scheme sr) (s_netloc sr) url params (s_query sr) (s_fragment sr))).

Definition urlunsplit (scheme netloc url query fragment : string) : string :=
  let url :=
    if nonempty netloc
       || (nonempty scheme && str_in scheme uses_netloc
           && negb (String.eqb (str_take 2 url) "//"))
    then
      let url :=
        if nonempty url && negb (String.eqb (str_take 1 url) "/")
        then "/" +:+ url else url in
      "//" +:+ netloc +:+ url
    else url in
  let url := if nonempty scheme then scheme +:+ ":" +:+ url else url in
  let url := if nonempty query then url +:+ "?" +:+ query else url in
  if nonempty fragment then url +:+ "#" +:+ fragment else url.

Definition urlunparse (scheme netloc url params query fragment : string) : string :=
  let url := if nonempty params then url +:+ ";" +:+ params else url in
  urlunsplit scheme netloc url query fragment.

(** [segments[1:-1] = filter(None, segments[1:-1])] *)
Definition filter_inner (segments : list string) : list string :=
  match segments with
  | first :: (_ :: _) as rest =>
      first :: List.filter nonempty (removelast rest) ++ [List.last rest EmptyString]
  | _ => segments
  end.

(** The loop over [segments] that builds [resolved_path]. *)
Definition resolve_segments (segments : list string) : list string :=
  fold_left
    (fun resolved_path seg =>
       if String.eqb seg ".." then removelast resolved_path
       else if String.eqb seg "." then resolved_path
       else resolved_path ++ [seg])
    segments [].

Definition urljoin (base url : string) : result string :=
  if negb (nonempty base) then Ok url
  else if negb (nonempty url) then Ok base
  else
    result_bind (urlparse base EmptyString) (fun b =>
    result_bind (urlparse url (p_scheme b)) (fun u =>
      let scheme := p_scheme u in
      if negb (String.eqb scheme (p_scheme b)) || negb (str_in scheme uses_relative)
      then Ok url
      else if str_in scheme uses_netloc && nonempty (p_netloc u)
      then Ok (urlunparse scheme (p_netloc u) (p_path u) (p_params u)
                 (p_query u) (p_fragment u))
      else
        let netloc := if str_in scheme uses_netloc then p_netloc b else p_netloc u in
        if negb (nonempty (p_path u)) && negb (nonempty (p_params u))
        then
          let query := if nonempty (p_query u) then p_query u else p_query b in
          Ok (urlunparse scheme netloc (p_path b) (p_params b) query (p_fragment u))
        else
          let base_parts := str_split "/" (p_path b) in
          let base_parts :=
            if nonempty (List.last base_parts EmptyString)
            then removelast base_parts else base_parts in
          let segments :=
            if String.eqb (str_take 1 (p_path u)) "/"
            then str_split "/" (p_path u)
            else filter_inner (base_parts ++ str_split "/" (p_path u)) in
          let resolved_path := resolve_segments segments in
          let resolved_path :=
            if str_in (List.last segments EmptyString) ["."; ".."]
            then resolved_path ++ [EmptyString] else resolved_path in
          let joined := str_join "/" resolved_path in
          Ok (urlunparse scheme netloc (if nonempty joined then joined else "/")
                (p_params u) (p_query u) (p_fragment u)))).

End UrllibParse.

(** ** Beautiful Soup document trees *)

(** A parsed document: text nodes, comments (standing for every string
    class that [get_text] leaves out) and tags.  [attrs] holds the attribute
    text; the values of the multi-valued attribute [class] are its
    whitespace-separated words, as the tree builder splits them. *)
#[local] Set Warnings "-register-all".
Inductive node : Type :=
| NavigableString (s : string)
| Comment (s : string)
| Tag (name : string) (attrs : gmap string string) (contents : list node).

(** [tag.descendants]: every node below the tag, in document order. *)
Fixpoint descendants (n : node) : list node :=
  match n with
  | Tag _ _ contents =>
      (fix go (l : list node) : list node :=
         match l with
         | [] => []
         | c :: l' => c :: descendants c ++ go l'
         end) contents
  | _ => []
  end.

Definition tag_attrs (n : node) : gmap string string :=
  match n with
  | Tag _ a _ => a
  | _ => ∅
  end.

(** [tag.has_attr(key)] *)
Definition has_attr (n : node) (key : string) : bool :=
  bool_decide (is_Some (tag_attrs n !! key)).

(** [tag[key]]: raises [KeyError] when the attribute is absent. *)
Definition getitem (n : node) (key : string) : result string :=
  match tag_attrs n !! key with
  | Some v => Ok v
  | None => Raise (KeyError key)
  end.

(** Matching [class_=cls]: some value of the class attribute equals [cls],
    or the values joined by one space do. *)
Definition class_matches (cls : string) (n : node) : bool :=
  match tag_attrs n !! "class" with
  | Some v =>
      let values := nonwhitespace_runs EmptyString v in
      existsb (String.eqb cls) values || String.eqb (str_join " " values) cls
  | None => false
  end.

Definition tag_matches (name : string) (class_ : option string) (n : node) : bool :=
  match n with
  | Tag nm _ _ =>
      String.eqb nm name &&
      match class_ with
      | Some cls => class_matches cls n
      | None => true
      end
  | _ => false
  end.

(** [tag.find_all(name, class_=...)] and [tag.find(name, class_=...)] *)
Definition find_all (n : node) (name : string) (class_ : option string) : list node :=
  List.filter (tag_matches name class_) (descendants n).

Definition find (n : node) (name : string) (class_ : option string) : option node :=
  head (find_all n name class_).

(** [tag.get_text(strip=True)]: the text nodes below the tag, each stripped,
    the empty ones dropped, joined without separator. *)
Definition stripped_strings (n : node) : list string :=
  List.filter nonempty
    (omap (fun d => match d with NavigableString s => Some (strip s) | _ => None end)
          (descendants n)).

Definition get_text_strip (n : node) : string :=
  str_join EmptyString (stripped_strings n).

(** ** The world outside the script *)

Record Response : Type := mkResponse {
  status_code : Z;
  content_type : option string;   (* headers.get('Content-Type') *)
  text : string;
  iter_content : list string;     (* the chunks iter_content yields *)
  iter_error : option exn         (* raised by the stream after the chunks *)
}.

Inductive get_outcome : Type :=
| GetRaises (e : exn)
| GetReturns (r : Response).

Record World : Type := mkWorld {
  requests_get : string -> list (string * string) -> get_outcome;
  BeautifulSoup : string -> result node;
  url_check_bracketed_netloc : string -> bool;
  url_checknetloc_nfkc : string -> bool;
  open_succeeds : string -> bool;
  interference : gmap string string -> gmap string string
}.

Inductive level : Type := DEBUG | INFO | WARNING | ERROR.

Record State : Type := mkState {
  files : gmap string string;
  log : list (level * string);
  console : list string
}.

(** ** The monad of the script: state and exceptions *)

Definition M (A : Type) : Type := State -> result A * State.

Definition ret {A : Type} (a : A) : M A := fun st => (Ok a, st).

Definition raise {A : Type} (e : exn) : M A := fun st => (Raise e, st).

Definition bind {A B : Type} (m : M A) (k : A -> M B) : M B :=
  fun st =>
    match m st with
    | (Ok a, st') => k a st'
    | (Raise e, st') => (Raise e, st')
    end.

Definition lift {A : Type} (r : result A) : M A := fun st => (r, st).

Notation "x <- m ;; k" := (bind m (fun x => k))
  (at level 100, m at next level, right associativity).
Notation "m ;; k" := (bind m (fun _ => k))
  (at level 100, right associativity).

(** [try: body except requests.RequestException as e: h_req
     except Exception as e: h_exc] *)
Definition try_except {A : Type} (body : M A) (h_req h_exc : exn -> M A) : M A :=
  fun st =>
    match body st with
    | (Ok a, st') => (Ok a, st')
    | (Raise e, st') => if is_RequestException e then h_req e st' else h_exc e st'
    end.

(** [try: body except Exception as e: h] *)
Definition try_except_Exception {A : Type} (body : M A) (h : exn -> M A) : M A :=
  fun st =>
    match body st with
    | (Ok a, st') => (Ok a, st')
    | (Raise e, st') => h e st'
    end.

(** [logger.<level>(msg)]: the record goes to the two handlers that
    [setup_logging] installs, the file handler of the run's log file and the
    stream handler that echoes it on standard error.  [log] holds the
    records in order; [file_system] and [standard_error] below show them as
    the log file and as the echo.  [files] holds the files that the script
    opens itself, and [console] what [print] writes on standard output. *)
Definition logger (lv : level) (msg : string) : M unit :=
  fun st => (Ok tt, mkState (files st) (log st ++ [(lv, msg)]) (console st)).

Definition print (line : string) : M unit :=
  fun st => (Ok tt, mkState (files st) (log st) (console st ++ [line])).

Record entry : Type := mkEntry {
  title : string; authors : string; link : string; source : string }.

(** ** The script *)

Section Script.

Variable W : World.

(** [requests.get(url, params=params, ...)] *)
Definition get (url : string) (params : list (string * string)) : M Response :=
  match requests_get W url params with
  | GetRaises e => raise e
  | GetReturns r => ret r
  end.

(** [response.raise_for_status()]: [HTTPError] for a status from 400 to 599. *)
Definition raise_for_status (r : Response) : M unit :=
  if ((400 <=? status_code r) && (status_code r <? 600))%Z
  then raise (HTTPError (status_code r))
  else ret tt.

Definition py_urljoin (base url : string) : M string :=
  lift (urljoin (url_check_bracketed_netloc W) (url_checknetloc_nfkc W) base url).

(** [open(filename, 'w')]: creates or truncates the file, or raises. *)
Definition open_w (filename : string) : M unit :=
  fun st =>
    if open_succeeds W filename
    then (Ok tt, mkState (<[filename := EmptyString]> (files st)) (log st) (console st))
    else (Raise (OSError "open"), st).

(** [f.write(data)] on the file opened at [filename]. *)
Definition write (filename data : string) : M unit :=
  fun st =>
    (Ok tt, mkState (alter (fun old => old +:+ data) filename (files st))
                    (log st) (console st)).

(** [os.path.exists(filename)], asked after the rest of the system had its
    turn on the files. *)
Definition os_path_exists (filename : string) : M bool :=
  fun st =>
    let fs := interference W (files st) in
    (Ok (bool_decide (is_Some (fs !! filename))), mkState fs (log st) (console st)).

(** *** [search_nepjol] *)

Definition base_url : string := "https://www.nepjol.info/index.php/index/search/index".

Definition search_params (query : string) : list (string * string) :=
  [("query", query); ("dateFromYear", ""); ("dateFromMonth", "");
   ("dateFromDay", ""); ("dateToYear", ""); ("dateToMonth", "");
   ("dateToDay", ""); ("authors", "")].

(** The body of the loop over the result blocks: the block is parsed and
    appended to [parsed_results]; an exception is logged and the block
    skipped. *)
Definition parse_result (result : node) (parsed_results : list entry) : M (list entry) :=
  try_except_Exception
    (let link_tag := find result "a" None in
     let title :=
       match link_tag with
       | Some t => get_text_strip t
       | None => "No title"
       end in
     link <- match link_tag with
             | Some t => if has_attr t "href" then lift (getitem t "href") else ret "No link"
             | None => ret "No link"
             end ;;
     link <- (if startswith "/" link
              then logger DEBUG "Converted relative URL to absolute: {link}" ;;
                   ret ("https://www.nepjol.info" +:+ link)
              else ret link) ;;
     let author_tag := find result "div" (Some "authors") in
     let authors :=
       match author_tag with
       | Some t => get_text_strip t
       | None => "No authors"
       end in
     let source_tag := find result "div" (Some "source") in
     let source :=
       match source_tag with
       | Some t => get_text_strip t
       | None => "Unknown source"
       end in
     let parsed_results := parsed_results ++ [mkEntry title authors link source] in
     logger DEBUG "Parsed result {i}: {title[:50]}..." ;;
     ret parsed_results)
    (fun e =>
       logger ERROR "Error parsing result {i}: {e}" ;;
       ret parsed_results).

Fixpoint parse_results (results : list node) (parsed_results : list entry) : M (list entry) :=
  match results with
  | [] => ret parsed_results
  | result :: rest =>
      parsed_results <- parse_result result parsed_results ;;
      parse_results rest parsed_results
  end.

Definition search_nepjol (query : string) : M (list entry) :=
  logger INFO "Starting search for query: '{query}'" ;;
  try_except
    (logger DEBUG "Making request to: {base_url}" ;;
     logger DEBUG "Request parameters: {params}" ;;
     response <- get base_url (search_params query) ;;
     raise_for_status response ;;
     logger INFO "Request successful. Status code: {response.status_code}" ;;
     logger DEBUG "Response URL: {response.url}" ;;
     soup <- lift (BeautifulSoup W (text response)) ;;
     let results := find_all soup "div" (Some "obj_article_summary") in
     logger INFO "Found {len(results)} result elements" ;;
     match results with
     | [] =>
         logger WARNING "No results found in the parsed HTML" ;;
         ret []
     | _ =>
         parsed_results <- parse_results results [] ;;
         logger INFO "Successfully parsed {len(parsed_results)} results" ;;
         ret parsed_results
     end)
    (fun e => logger ERROR "Request error: {e}" ;; ret [])
    (fun e => logger ERROR "Unexpected error in search_nepjol: {e}" ;; ret []).

(** *** [save_to_file] *)

(** The characters the sanitiser keeps. *)
Definition safe_char (c : ascii) : bool :=
  isalnum c || Ascii.eqb c " " || Ascii.eqb c "-" || Ascii.eqb c "_".

(** ["".join(c for c in s if c.isalnum() or c in (' ', '-', '_')).rstrip()] *)
Definition sanitize (s : string) : string := rstrip (str_filter safe_char s).

Definition separator_line : string := String.concat "" (repeat "=" 60).

(** The four [f.write] calls for the [i]-th result. *)
Definition write_result (filename : string) (i : nat) (result : entry) : M unit :=
  write filename (str_of_nat i +:+ ". " +:+ title result +:+ nl) ;;
  write filename ("   Authors: " +:+ authors result +:+ nl) ;;
  write filename ("   Source: " +:+ source result +:+ nl) ;;
  write filename ("   Link: " +:+ link result +:+ nl +:+ nl).

(** [for i, result in enumerate(results, i): ...] *)
Fixpoint write_results (filename : string) (i : nat) (results : list entry) : M unit :=
  match results with
  | [] => ret tt
  | result :: rest =>
      write_result filename i result ;;
      write_results filename (S i) rest
  end.

(** [if not filename: filename = f"nepjol_results_{safe_query}.txt"] *)
Definition results_filename (query : string) (filename : option string) : string :=
  match filename with
  | Some f => if nonempty f then f
              else "nepjol_results_" +:+ sanitize query +:+ ".txt"
  | None => "nepjol_results_" +:+ sanitize query +:+ ".txt"
  end.

Definition save_to_file (results : list entry) (query : string)
    (filename : option string) : M unit :=
  logger INFO "Saving results to file for query: '{query}'" ;;
  match results with
  | [] => logger WARNING "No results to save"
  | _ =>
      let filename := results_filename query filename in
      try_except_Exception
        (open_w filename ;;
         write filename ("NepJol Search Results for: " +:+ query +:+ nl) ;;
         write filename (separator_line +:+ nl +:+ nl) ;;
         write_results filename 1 results ;;
         logger INFO "Results successfully saved to: {filename}" ;;
         print "Results saved to: {filename}")
        (fun e =>
           logger ERROR "Error saving to file {filename}: {e}" ;;
           print "Error saving file: {e}")
  end.

(** *** [find_pdf_link] *)

Definition find_pdf_link (article_url : string) : M (option string) :=
  logger INFO "Step 1: Looking for PDF viewer link on: {article_url}" ;;
  try_except
    (response <- get article_url [] ;;
     raise_for_status response ;;
     soup <- lift (BeautifulSoup W (text response)) ;;
     let pdf_viewer_link_tag := find soup "a" (Some "obj_galley_link pdf") in
     match pdf_viewer_link_tag with
     | Some tag =>
         if has_attr tag "href" then
           href <- lift (getitem tag "href") ;;
           pdf_viewer_url <- py_urljoin article_url href ;;
           logger INFO "Step 2: Found PDF viewer link. Now looking for download link on: {pdf_viewer_url}" ;;
           response_viewer <- get pdf_viewer_url [] ;;
           raise_for_status response_viewer ;;
           soup_viewer <- lift (BeautifulSoup W (text response_viewer)) ;;
           let final_download_link_tag := find soup_viewer "a" (Some "download") in
           match final_download_link_tag with
           | Some dtag =>
               if has_attr dtag "href" then
                 dhref <- lift (getitem dtag "href") ;;
                 final_pdf_url <- py_urljoin pdf_viewer_url dhref ;;
                 logger INFO "Step 3: Found final PDF download link: {final_pdf_url}" ;;
                 ret (Some final_pdf_url)
               else
                 logger WARNING "Final download link not found on the viewer page." ;;
                 ret None
           | None =>
               logger WARNING "Final download link not found on the viewer page." ;;
               ret None
           end
         else
           logger WARNING "PDF viewer link not found on the article page." ;;
           ret None
     | None =>
         logger WARNING "PDF viewer link not found on the article page." ;;
         ret None
     end)
    (fun e => logger ERROR "Error fetching page: {e}" ;; ret None)
    (fun e => logger ERROR "Unexpected error in find_pdf_link: {e}" ;; ret None).

(** *** [download_file] *)

(** [for chunk in response.iter_content(chunk_size=8192): f.write(chunk)];
    the stream may fail after its last chunk. *)
Fixpoint write_chunks (filename : string) (chunks : list string)
    (err : option exn) : M unit :=
  match chunks with
  | [] => match err with Some e => raise e | None => ret tt end
  | chunk :: rest => write filename chunk ;; write_chunks filename rest err
  end.

Definition download_file (url filename : string) : M bool :=
  logger INFO "Starting download from: {url}" ;;
  logger INFO "Target filename: {filename}" ;;
  try_except
    (print "Downloading {filename}..." ;;
     response <- get url [] ;;
     raise_for_status response ;;
     logger DEBUG "Download response status: {response.status_code}" ;;
     let content_type := default EmptyString (content_type response) in
     logger DEBUG "Content-Type: {content_type}" ;;
     if negb (str_contains "application/pdf" content_type) then
       logger WARNING "Downloaded file is not a PDF. Content-Type: {content_type}" ;;
       print "The downloaded file is not a PDF. Aborting." ;;
       ret false
     else
       open_w filename ;;
       write_chunks filename (iter_content response) (iter_error response) ;;
       present <- os_path_exists filename ;;
       if present then
         logger INFO "Download complete: {filename}" ;;
         print "Download complete: {filename}" ;;
         ret true
       else
         logger ERROR "File {filename} was not created after download" ;;
         ret false)
    (fun e => logger ERROR "Error downloading the file: {e}" ;; ret false)
    (fun e => logger ERROR "An error occurred during download: {e}" ;; ret false).

(** *** The file name of the main block *)

(** [clean_title = "".join(...).rstrip()] and [filename = f"{clean_title}.pdf"] *)
Definition clean_title (title : string) : string := sanitize title.

Definition pdf_filename (title : string) : string := clean_title title +:+ ".pdf".

End Script.

(** ** The text-export format and a reader for it *)

(** The text of one record and of the whole file, as the [f.write] calls of
    [save_to_file] lay them out. *)
Definition record_text (i : nat) (r : entry) : string :=
  (str_of_nat i +:+ ". " +:+ title r +:+ nl)
  +:+ ("   Authors: " +:+ authors r +:+ nl)
  +:+ ("   Source: " +:+ source r +:+ nl)
  +:+ ("   Link: " +:+ link r +:+ nl +:+ nl).

Fixpoint export_records (i : nat) (results : list entry) : string :=
  match results with
  | [] => EmptyString
  | r :: rest => record_text i r +:+ export_records (S i) rest
  end.

Definition export_text (query : string) (results : list entry) : string :=
  ("NepJol Search Results for: " +:+ query +:+ nl)
  +:+ (separator_line +:+ nl +:+ nl)
  +:+ export_records 1 results.

(** The first line of a text and what follows its line feed. *)
Fixpoint read_line (s : string) : string * string :=
  match s with
  | EmptyString => (EmptyString, EmptyString)
  | String c s' =>
      if Ascii.eqb c LF then (EmptyString, s')
      else let '(line, rest) := read_line s' in (String c line, rest)
  end.

Fixpoint strip_prefix (p s : string) : option string :=
  match p, s with
  | EmptyString, _ => Some s
  | String a p', String b s' => if Ascii.eqb a b then strip_prefix p' s' else None
  | String _ _, EmptyString => None
  end.

(** Modelled from the spec: the repository has no reader of its export
    file; this is the "matching reader" of the round-trip property, following
    the format of section 6 line by line: a number, a dot and a space before
    the title, then the Authors, Source and Link lines and an empty line. *)
Definition read_record (s : string) : option (entry * string) :=
  let '(l1, s) := read_line s in
  let '(l2, s) := read_line s in
  let '(l3, s) := read_line s in
  let '(l4, s) := read_line s in
  let '(l5, s) := read_line s in
  t ← strip_prefix ". " (lstrip_by isdigit l1);
  a ← strip_prefix "   Authors: " l2;
  src ← strip_prefix "   Source: " l3;
  l ← strip_prefix "   Link: " l4;
  if nonempty l5 then None else Some (mkEntry t a l src, s).

Fixpoint read_records (fuel : nat) (s : string) : option (list entry) :=
  match fuel with
  | 0 => None
  | S fuel' =>
      if nonempty s then
        '(r, rest) ← read_record s;
        rs ← read_records fuel' rest;
        Some (r :: rs)
      else Some []
  end.

(** Modelled from the spec: the reader of a whole export file: the header
    line, the separator line and an empty line, then the records. *)
Definition read_export (s : string) : option (list entry) :=
  let '(header, s1) := read_line s in
  let '(sep, s2) := read_line s1 in
  let '(blank, s3) := read_line s2 in
  if startswith "NepJol Search Results for: " header
     && String.eqb sep separator_line && negb (nonempty blank)
  then read_records (S (String.length s3)) s3
  else None.

(** A field that the line-based format can carry: no line feed in it. *)
Definition single_line (s : string) : bool := negb (char_in LF s).

Definition entry_single_line (r : entry) : bool :=
  single_line (title r) && single_line (authors r)
  && single_line (source r) && single_line (link r).

(** ** Absolute URLs *)

(** A URL is absolute when [urlsplit] finds a scheme and a network location
    in it. *)
Definition absolute_url (s : string) : bool :=
  match urlsplit (fun _ => true) (fun _ => true) s EmptyString with
  | Ok sr => nonempty (s_scheme sr) && nonempty (s_netloc sr)
  | Raise _ => false
  end.

(** ** Concrete worlds for the examples *)

Definition empty_document : node := Tag "[document]" ∅ [].

(** A web made of the listed pages; any other URL is unreachable. *)
Fixpoint web (pages : list (string * Response)) (url : string)
    (params : list (string * string)) : get_outcome :=
  match pages with
  | [] => GetRaises ConnectionError
  | (u, r) :: rest => if String.eqb u url then GetReturns r else web rest url params
  end.

(** A parser that knows the trees of the listed page texts. *)
Fixpoint parser (docs : list (string * node)) (html : string) : result node :=
  match docs with
  | [] => Ok empty_document
  | (t, d) :: rest => if String.eqb t html then Ok d else parser rest html
  end.

Definition world_of (pages : list (string * Response)) (docs : list (string * node)) : World :=
  mkWorld (web pages) (parser docs) (fun _ => true) (fun _ => true) (fun _ => true) id.

Definition html_page (status : Z) (html : string) : Response :=
  mkResponse status (Some "text/html; charset=utf-8") html [html] None.

Definition document (contents : list node) : node := Tag "[document]" ∅ contents.

Definition anchor (class_ href label : string) : node :=
  Tag "a" (<["class" := class_]> (<["href" := href]> ∅)) [NavigableString label].

Definition state0 : State := mkState ∅ [] [].

(** The site of the link-resolution example: an article page whose galley
    anchor points to [/view/1], and a viewer page whose download anchor
    points to [/download/1/pdf]. *)
Definition article_html : string := "<a class='obj_galley_link pdf' href='/view/1'>PDF</a>".
Definition viewer_html : string := "<a class='download' href='/download/1/pdf'>Download</a>".

Definition site_world : World :=
  world_of
    [("https://site/a/1", html_page 200 article_html);
     ("https://site/view/1", html_page 200 viewer_html)]
    [(article_html, document [anchor "obj_galley_link pdf" "/view/1" "PDF"]);
     (viewer_html, document [anchor "download" "/download/1/pdf" "Download"])].

(** [response.raise_for_status()] returns normally. *)
Definition status_ok (r : Response) : Prop :=
  ((400 <=? status_code r) && (status_code r <? 600))%Z = false.

(** ** What one result block stands for *)

Definition site_origin : string := "https://www.nepjol.info".

(** The link of a block: the href of its first anchor, prefixed with the
    site origin when it starts with a slash; the sentinel when the anchor or
    its href is missing. *)
Definition block_link (result : node) : string :=
  match find result "a" None with
  | Some a =>
      match tag_attrs a !! "href" with
      | Some href => if startswith "/" href then site_origin +:+ href else href
      | None => "No link"
      end
  | None => "No link"
  end.

Definition text_or (default_text : string) (tag : option node) : string :=
  match tag with
  | Some t => get_text_strip t
  | None => default_text
  end.

(** The entry that a result block yields. *)
Definition summary_of (result : node) : entry :=
  mkEntry (text_or "No title" (find result "a" None))
          (text_or "No authors" (find result "div" (Some "authors")))
          (block_link result)
          (text_or "Unknown source" (find result "div" (Some "source"))).

(** A results page with one block, whose anchor has the relative href
    [article/view/1]. *)
Definition relative_results_html : string :=
  "<div class='obj_article_summary'><a href='article/view/1'>A study</a></div>".

Definition relative_block : node :=
  Tag "div" (<["class" := "obj_article_summary"]> ∅)
    [Tag "a" (<["href" := "article/view/1"]> ∅) [NavigableString "A study"]].

Definition relative_world : World :=
  world_of [(base_url, html_page 200 relative_results_html)]
           [(relative_results_html, document [relative_block])].


(** An anchor whose visible text is empty or made of whitespace only: every
    text node below it is blank. *)
Definition whitespace_only (a : node) : bool :=
  forallb (fun d => match d with
                    | NavigableString s => str_forallb isspace s
                    | _ => true
                    end) (descendants a).

(** A results page with two blocks: a complete one, and one with no anchor,
    no authors and no source. *)
Definition sample_results_html : string :=
  "<div class='obj_article_summary'><a href='/index.php/j/article/view/7'> Rice yield </a>"
  +:+ "<div class='authors'>A. Sharma</div><div class='source'>Vol 1</div></div>"
  +:+ "<div class='obj_article_summary'></div>".

Definition sample_blocks : list node :=
  [Tag "div" (<["class" := "obj_article_summary"]> ∅)
     [Tag "a" (<["href" := "/index.php/j/article/view/7"]> ∅) [NavigableString " Rice yield "];
      Tag "div" (<["class" := "authors"]> ∅) [NavigableString "A. Sharma"];
      Tag "div" (<["class" := "source"]> ∅) [NavigableString "Vol 1"]];
   Tag "div" (<["class" := "obj_article_summary"]> ∅) []].

Definition sample_world : World :=
  world_of [(base_url, html_page 200 sample_results_html)]
           [(sample_results_html, document sample_blocks)].

(** A results page whose only block has an anchor with blank text. *)
Definition blank_results_html : string :=
  "<div class='obj_article_summary'><a href='/x'>  </a></div>".

Definition blank_anchor : node :=
  Tag "a" (<["href" := "/x"]> ∅) [NavigableString "  "].

Definition blank_block : node :=
  Tag "div" (<["class" := "obj_article_summary"]> ∅) [blank_anchor].

Definition blank_world : World :=
  world_of [(base_url, html_page 200 blank_results_html)]
           [(blank_results_html, document [blank_block])].


(** ** Downloads *)

(** The bytes of a body: its chunks one after the other. *)
Definition body_bytes (chunks : list string) : string :=
  fold_right String.append EmptyString chunks.

Definition pdf_response : Response :=
  mkResponse 200 (Some "application/pdf") EmptyString ["%PDF-1.4 "; "body"] None.

(** A site that serves a PDF, in a system that leaves the files alone. *)
Definition pdf_world : World :=
  world_of [("https://site/download/1/pdf", pdf_response)] [].

(** The same site, in a system that removes [paper.pdf] as soon as it is
    closed. *)
Definition vanishing_world : World :=
  mkWorld (web [("https://site/download/1/pdf", pdf_response)]) (parser [])
          (fun _ => true) (fun _ => true) (fun _ => true) (delete "paper.pdf").


(** ** Transport failures *)

(** A request fails when [requests.get] raises or when [raise_for_status]
    rejects the status of the response (400 to 599). *)
Definition transport_failure (o : get_outcome) : Prop :=
  match o with
  | GetRaises _ => True
  | GetReturns r => (400 <= status_code r < 600)%Z
  end.

(** A network where nothing answers. *)
Definition down_world : World := world_of [] [].

(** The sample results page, served with status 404. *)
Definition notfound_world : World :=
  world_of [(base_url, html_page 404 sample_results_html)]
           [(sample_results_html, document sample_blocks)].

(** The sample results page and the pages of the example site, served with
    status 300 (a redirection without target, which [requests] hands over
    as it is). *)
Definition multiple_choices_world : World :=
  world_of
    [(base_url, html_page 300 sample_results_html);
     ("https://site/a/1", html_page 300 article_html);
     ("https://site/view/1", html_page 300 viewer_html)]
    [(sample_results_html, document sample_blocks);
     (article_html, document [anchor "obj_galley_link pdf" "/view/1" "PDF"]);
     (viewer_html, document [anchor "download" "/download/1/pdf" "Download"])].


(** ** Two results sequences with the same export *)

(** One record whose authors field runs over several lines ... *)
Definition merged_results : list entry :=
  [mkEntry "T"
           ("A" +:+ nl +:+ "   Source: S1" +:+ nl +:+ "   Link: L1" +:+ nl +:+ nl
            +:+ "2. T2" +:+ nl +:+ "   Authors: A2")
           "L" "S"].

(** ... and the two records that its export reads as. *)
Definition split_results : list entry :=
  [mkEntry "T" "A" "L1" "S1"; mkEntry "T2" "A2" "L" "S"].


(** ** [display_results] and the main block *)

(** [s.lower()] for code points below 256: the capital letters A-Z and
    the accented capitals 192-214 and 216-222 move up by 32. *)
Definition char_lower (c : ascii) : ascii :=
  let n := code c in
  if between 65 90 n || between 192 214 n || between 216 222 n
  then ascii_of_nat (n + 32) else c.

Definition str_lower (s : string) : string := str_map char_lower s.

(** The whitespace that [int] skips around a number: tab to carriage
    return, space, and the two non-ASCII spaces 133 and 160. *)
Definition int_space (c : ascii) : bool :=
  let n := code c in between 9 13 n || (n =? 32) || (n =? 133) || (n =? 160).

(** The digits of a decimal literal, with single underscores allowed
    between digits. *)
Fixpoint int_digits (s : string) (acc : Z) (after_digit : bool) : option Z :=
  match s with
  | EmptyString => if after_digit then Some acc else None
  | String c s' =>
      if isdigit c then int_digits s' (10 * acc + Z.of_nat (code c - 48))%Z true
      else if Ascii.eqb c "_" && after_digit then int_digits s' acc false
      else None
  end.

(** [sys.get_int_max_str_digits()]: CPython 3.11 converts no decimal
    string of more digits to an integer, and no integer of more digits to a
    string. *)
Definition int_max_str_digits : nat := 4300.

(** [int(s)] for a string: surrounding whitespace, an optional sign, the
    digits; [ValueError] for anything else, and for more than
    [int_max_str_digits] digits (underscores not counted). *)
Definition py_int (s : string) : result Z :=
  let body := rstrip_by int_space (lstrip_by int_space s) in
  let '(negative, digits) :=
    match body with
    | String "-" d => (true, d)
    | String "+" d => (false, d)
    | _ => (false, body)
    end in
  match int_digits digits 0%Z false with
  | Some n =>
      if int_max_str_digits <? String.length (str_filter isdigit digits)
      then Raise (ValueError "Exceeds the limit (4300 digits) for integer string conversion")
      else Ok (if negative then (- n)%Z else n)
  | None => Raise (ValueError "invalid literal for int() with base 10")
  end.

(** [try: body except ValueError: h] *)
Definition try_except_ValueError {A : Type} (body : M A) (h : M A) : M A :=
  fun st =>
    match body st with
    | (Raise (ValueError _), st') => h st'
    | other => other
    end.

(** [input(prompt)] shows the prompt; the line comes from the lines typed
    so far, and a program that asks for more than was typed is waiting. *)
Inductive session : Type :=
| Ended
| Awaiting.

(** How one turn of the selection loop ends: the loop goes on with the
    next line, goes on after the download answer was read too, or waits for
    that answer. *)
Inductive turn : Type :=
| Again
| AgainAfterAnswer
| Wait.

Definition line50 : string := String.concat "" (repeat "=" 50).

Section Interaction.

Variable W : World.

(** The five [print] calls for each result. *)
Fixpoint display_rows (results : list entry) : M unit :=
  match results with
  | [] => ret tt
  | _ :: rest =>
      print "{i}. {result['title']}" ;;
      print "   Authors: {result['authors']}" ;;
      print "   Source: {result['source']}" ;;
      print "   Link: {result['link']}" ;;
      print "" ;;
      display_rows rest
  end.

Definition display_results (results : list entry) (query : string) : M unit :=
  match results with
  | [] => logger WARNING "No results to display"
  | _ =>
      print "\n{'='*80}" ;;
      print "SEARCH RESULTS FOR: '{query.upper()}'" ;;
      print "Found {len(results)} results" ;;
      print "{'='*80}\n" ;;
      display_rows results
  end.

(** The [try] block of the loop, for a choice that is neither [q] nor [s];
    [rest] holds the lines typed after the choice. *)
Definition selection (results : list entry) (choice : string) (rest : list string) : M turn :=
  try_except_ValueError
    (n <- lift (py_int choice) ;;
     let index := (n - 1)%Z in
     if ((0 <=? index) && (index <? Z.of_nat (length results)))%Z then
       selected_article <- lift (match results !! Z.to_nat index with
                                 | Some r => Ok r
                                 | None => Raise (KeyError "list index out of range")
                                 end) ;;
       logger INFO "Selected article index: {index}, title: {selected_article['title'][:50]}..." ;;
       print "\nSelected article: {selected_article['title']}" ;;
       pdf_url <- find_pdf_link W (link selected_article) ;;
       match pdf_url with
       | Some url =>
           if nonempty url then
             print "Found PDF link: {pdf_url}" ;;
             print "Do you want to download this PDF? (y/n): " ;;
             match rest with
             | [] => ret Wait
             | answer :: _ =>
                 let download_choice := str_lower answer in
                 logger INFO "Download choice: '{download_choice}'" ;;
                 if str_in download_choice ["y"; "yes"] then
                   let filename := pdf_filename (title selected_article) in
                   logger INFO "Attempting to download to: {filename}" ;;
                   success <- download_file W url filename ;;
                   (if negb success
                    then logger WARNING "Download failed for: {filename}"
                    else ret tt) ;;
                   ret AgainAfterAnswer
                 else ret AgainAfterAnswer
             end
           else
             print "No downloadable PDF found for this article." ;;
             logger INFO "No PDF found for selected article" ;;
             ret Again
       | None =>
           print "No downloadable PDF found for this article." ;;
           logger INFO "No PDF found for selected article" ;;
           ret Again
       end
     else
       logger WARNING "Invalid article number: {choice}" ;;
       print "Invalid number. Please try again." ;;
       ret Again)
    (logger WARNING "Invalid input (not a number): '{choice}'" ;;
     print "Invalid input. Please enter a number, 's', or 'q'." ;;
     ret Again).

(** [while True: ...] over the lines typed. *)
Fixpoint interact (results : list entry) (query : string) (stdin : list string) : M session :=
  print "Enter the number of the article to view/download (or 's' to save all to file, 'q' to quit): " ;;
  match stdin with
  | [] => ret Awaiting
  | line :: rest =>
      let choice := strip line in
      logger INFO "User choice: '{choice}'" ;;
      if String.eqb (str_lower choice) "q" then
        logger INFO "User chose to quit" ;;
        ret Ended
      else if String.eqb (str_lower choice) "s" then
        logger INFO "User chose to save results to file" ;;
        save_to_file W results query None ;;
        ret Ended
      else
        t <- selection results choice rest ;;
        match t with
        | Again => interact results query rest
        | AgainAfterAnswer =>
            match rest with
            | _ :: rest' => interact results query rest'
            | [] => ret Awaiting
            end
        | Wait => ret Awaiting
        end
  end.

(** The main block; [finally] runs once the program is through. *)
Definition main (stdin : list string) : M session :=
  logger INFO line50 ;;
  logger INFO "NepJol Search Program Started" ;;
  logger INFO line50 ;;
  s <- try_except_Exception
         (print "Enter your search term: " ;;
          match stdin with
          | [] => ret Awaiting
          | line :: rest =>
              let query := strip line in
              logger INFO "User input query: '{query}'" ;;
              if negb (nonempty query) then
                logger WARNING "Empty query entered by user" ;;
                print "Please enter a valid search term." ;;
                ret Ended
              else
                results <- search_nepjol W query ;;
                display_results results query ;;
                match results with
                | [] => ret Ended
                | _ => interact results query rest
                end
          end)
         (fun e =>
            logger ERROR "Unexpected error in main program: {e}" ;;
            print "An unexpected error occurred: {e}" ;;
            ret Ended) ;;
  match s with
  | Awaiting => ret Awaiting
  | Ended =>
      logger INFO "Program finished" ;;
      print "\nProgram finished. Log file created: {log_filename}" ;;
      ret Ended
  end.

End Interaction.


(** A whole site for the sessions of the examples: a results page with one
    article, its article and viewer pages, and the PDF. *)
Definition session_results_html : string :=
  "<div class='obj_article_summary'><a href='https://site/a/1'>Rice: yield?</a></div>".

Definition session_block : node :=
  Tag "div" (<["class" := "obj_article_summary"]> ∅)
    [Tag "a" (<["href" := "https://site/a/1"]> ∅) [NavigableString "Rice: yield?"]].

Definition session_entry : entry :=
  mkEntry "Rice: yield?" "No authors" "https://site/a/1" "Unknown source".

Definition session_world : World :=
  world_of
    [(base_url, html_page 200 session_results_html);
     ("https://site/a/1", html_page 200 article_html);
     ("https://site/view/1", html_page 200 viewer_html);
     ("https://site/download/1/pdf", pdf_response)]
    [(session_results_html, document [session_block]);
     (article_html, document [anchor "obj_galley_link pdf" "/view/1" "PDF"]);
     (viewer_html, document [anchor "download" "/download/1/pdf" "Download"])].


(** ** Frames and trimmed text *)

(** A computation that leaves the files as they are, and one that also
    prints nothing. *)
Definition keeps_files {A : Type} (m : M A) : Prop :=
  forall st, files (snd (m st)) = files st.

Definition quiet {A : Type} (m : M A) : Prop :=
  forall st, files (snd (m st)) = files st /\ console (snd (m st)) = console st.

Definition first_char (s : string) : option ascii :=
  match s with
  | String c _ => Some c
  | EmptyString => None
  end.

Fixpoint last_char (s : string) : option ascii :=
  match s with
  | EmptyString => None
  | String c EmptyString => Some c
  | String _ s' => last_char s'
  end.

(** A text with no whitespace at either end. *)
Definition trimmed (s : string) : bool :=
  match first_char s with Some c => negb (isspace c) | None => true end
  && match last_char s with Some c => negb (isspace c) | None => true end.


(** A site whose PDF stream breaks after the first chunk. *)
Definition broken_stream_world : World :=
  world_of
    [("https://site/download/1/pdf",
      mkResponse 200 (Some "application/pdf") EmptyString ["%PDF-1.4 "] (Some ConnectionError))]
    [].




(** A computation whose outcome does not depend on the files, the log or
    the console, and one whose effect on the files depends on the files
    only. *)
Definition stateless {A : Type} (m : M A) : Prop :=
  forall st st', fst (m st) = fst (m st').



Definition choice_prompt : string :=
  "Enter the number of the article to view/download (or 's' to save all to file, 'q' to quit): ".

Definition download_prompt : string := "Do you want to download this PDF? (y/n): ".



(** ** The run's log file and the echo of the records *)

(** [log_filename], with the time stamp of the start of the run. *)
Definition run_log : string := "logs/nepjol_search_{timestamp}.log".

Definition levelname (lv : level) : string :=
  match lv with
  | DEBUG => "DEBUG"
  | INFO => "INFO"
  | WARNING => "WARNING"
  | ERROR => "ERROR"
  end.

(** One record under the format [%(asctime)s - %(levelname)s - %(message)s]. *)
Definition log_line (r : level * string) : string :=
  "%(asctime)s - " +:+ levelname (fst r) +:+ " - " +:+ snd r +:+ nl.

Fixpoint log_text (records : list (level * string)) : string :=
  match records with
  | [] => EmptyString
  | r :: rest => log_line r +:+ log_text rest
  end.

(** All the files of a state: those the script opened, and the log file of
    the run with the records written so far. *)
Definition file_system (st : State) : gmap string string :=
  <[run_log := log_text (log st)]> (files st).

(** What the stream handler has written on standard error. *)
Definition standard_error (st : State) : string := log_text (log st).

(** A computation that only appends records to the log. *)
Definition appends_log {A : Type} (m : M A) : Prop :=
  forall st, exists records, log (snd (m st)) = log st ++ records.

(** ** The sanitiser over all code points *)

Section CodePoints.

(** [str.isalnum] and [str.isspace] of the Unicode database. *)
Variable unicode_isalnum unicode_isspace : N -> bool.

(** [c.isalnum() or c in (' ', '-', '_')] *)
Definition allowed_point (c : N) : bool :=
  unicode_isalnum c || (c =? 32)%N || (c =? 45)%N || (c =? 95)%N.

(** [.rstrip()] *)
Fixpoint rstrip_points (l : list N) : list N :=
  match l with
  | [] => []
  | c :: l' =>
      match rstrip_points l' with
      | [] => if unicode_isspace c then [] else [c]
      | r => c :: r
      end
  end.

Definition clean_title_points (title : list N) : list N :=
  rstrip_points (List.filter allowed_point title).

(** [f"{clean_title}.pdf"] *)
Definition pdf_filename_points (title : list N) : list N :=
  clean_title_points title ++ [46; 112; 100; 102]%N.

End CodePoints.

(** The code points of a text of the embedding, and the tables of the
    embedding as tables over code points. *)
Definition points (s : string) : list N := map N_of_ascii (list_ascii_of_string s).

Definition latin_isalnum (c : N) : bool := isalnum (ascii_of_N c).

Definition latin_isspace (c : N) : bool := isspace (ascii_of_N c).


(** * Properties *)

(** ** Running the monad *)

Lemma getitem_lookup (n : node) (key v : string) :
  tag_attrs n !! key = Some v -> getitem n key = Ok v.
Proof. intros H. unfold getitem. now rewrite H. Qed.

Lemma has_attr_lookup (n : node) (key v : string) :
  tag_attrs n !! key = Some v -> has_attr n key = true.
Proof.
  intros H. unfold has_attr. apply bool_decide_eq_true. rewrite H. eauto.
Qed.

Lemma has_attr_false (n : node) (key : string) :
  has_attr n key = false -> tag_attrs n !! key = None.
Proof.
  unfold has_attr. intros H. apply bool_decide_eq_false in H.
  destruct (tag_attrs n !! key); [exfalso; apply H; eauto | reflexivity].
Qed.

Lemma raise_for_status_ok (r : Response) (st : State) :
  status_ok r -> raise_for_status r st = (Ok tt, st).
Proof. unfold status_ok, raise_for_status. intros ->. reflexivity. Qed.

#[local] Arguments startswith : simpl never.
#[local] Arguments str_contains : simpl never.
#[local] Arguments String.append : simpl never.

Ltac run_script :=
  unfold try_except, try_except_Exception, bind, get, py_urljoin, lift, logger,
    print, ret, raise; simpl.

(** ** Link resolution *)

(** C1 (amended): when both hops succeed, [find_pdf_link] returns the
    download anchor's href joined to the viewer page's own URL, which is
    itself the viewer anchor's href joined to the article URL. *)
Theorem find_pdf_link_joins_on_viewer_url
    (W : World) (st : State) (article_url : string)
    (r1 r2 : Response) (soup1 soup2 tag1 tag2 : node)
    (href1 href2 viewer_url final_url : string) :
  requests_get W article_url [] = GetReturns r1 ->
  status_ok r1 ->
  BeautifulSoup W (text r1) = Ok soup1 ->
  find soup1 "a" (Some "obj_galley_link pdf") = Some tag1 ->
  tag_attrs tag1 !! "href" = Some href1 ->
  urljoin (url_check_bracketed_netloc W) (url_checknetloc_nfkc W)
    article_url href1 = Ok viewer_url ->
  requests_get W viewer_url [] = GetReturns r2 ->
  status_ok r2 ->
  BeautifulSoup W (text r2) = Ok soup2 ->
  find soup2 "a" (Some "download") = Some tag2 ->
  tag_attrs tag2 !! "href" = Some href2 ->
  urljoin (url_check_bracketed_netloc W) (url_checknetloc_nfkc W)
    viewer_url href2 = Ok final_url ->
  fst (find_pdf_link W article_url st) = Ok (Some final_url).
Proof.
  intros Hget1 Hok1 Hsoup1 Hfind1 Hhref1 Hjoin1 Hget2 Hok2 Hsoup2 Hfind2 Hhref2 Hjoin2.
  unfold find_pdf_link. run_script.
  rewrite Hget1, (raise_for_status_ok _ _ Hok1), Hsoup1, Hfind1.
  rewrite (has_attr_lookup _ _ _ Hhref1), (getitem_lookup _ _ _ Hhref1), Hjoin1.
  rewrite Hget2, (raise_for_status_ok _ _ Hok2), Hsoup2, Hfind2.
  rewrite (has_attr_lookup _ _ _ Hhref2), (getitem_lookup _ _ _ Hhref2), Hjoin2.
  reflexivity.
Qed.

(** The example of the specification: article [https://site/a/1], viewer
    href [/view/1], download href [/download/1/pdf]. *)
Lemma find_pdf_link_site_example :
  fst (find_pdf_link site_world "https://site/a/1" state0)
  = Ok (Some "https://site/download/1/pdf").
Proof.
  apply (find_pdf_link_joins_on_viewer_url site_world state0 "https://site/a/1"
           (html_page 200 article_html) (html_page 200 viewer_html)
           (document [anchor "obj_galley_link pdf" "/view/1" "PDF"])
           (document [anchor "download" "/download/1/pdf" "Download"])
           (anchor "obj_galley_link pdf" "/view/1" "PDF")
           (anchor "download" "/download/1/pdf" "Download")
           "/view/1" "/download/1/pdf" "https://site/view/1");
    vm_compute; reflexivity.
Defined.

(** C1 as stated fails: on the example site the link is not
    [https://site/view/download/1/pdf]; a download href that starts with a
    slash replaces the whole path of the viewer URL. *)
Lemma find_pdf_link_site_not_under_view :
  fst (find_pdf_link site_world "https://site/a/1" state0)
    <> Ok (Some "https://site/view/download/1/pdf")
  /\ urljoin (fun _ => true) (fun _ => true) "https://site/view/1" "/download/1/pdf"
     = Ok "https://site/download/1/pdf".
Proof. split; [vm_compute; discriminate | vm_compute; reflexivity]. Qed.

(** ** Search results *)

Lemma parse_result_run (result : node) (acc : list entry) (st : State) :
  exists st', parse_result result acc st = (Ok (acc ++ [summary_of result]), st')
              /\ files st' = files st.
Proof.
  unfold parse_result, summary_of, block_link, text_or. run_script.
  destruct (find result "a" None) as [a|]; simpl.
  - destruct (tag_attrs a !! "href") as [href|] eqn:Hhref.
    + rewrite (has_attr_lookup _ _ _ Hhref), (getitem_lookup _ _ _ Hhref).
      destruct (startswith "/" href); simpl; eexists; split; reflexivity.
    + assert (Hno : has_attr a "href" = false).
      { unfold has_attr. apply bool_decide_eq_false. rewrite Hhref.
        intros [x Hx]. discriminate. }
      rewrite Hno. simpl. eexists; split; reflexivity.
  - eexists; split; reflexivity.
Qed.

Lemma parse_results_run (results : list node) :
  forall (acc : list entry) (st : State),
  exists st', parse_results results acc st = (Ok (acc ++ map summary_of results), st')
              /\ files st' = files st.
Proof.
  induction results as [|result rest IH]; intros acc st; simpl.
  - exists st. rewrite app_nil_r. split; reflexivity.
  - unfold bind.
    destruct (parse_result_run result acc st) as (st1 & Hrun & Hfiles).
    rewrite Hrun.
    destruct (IH (acc ++ [summary_of result]) st1) as (st2 & Hrest & Hfiles2).
    exists st2. rewrite Hrest, <- app_assoc. simpl. split; [reflexivity | congruence].
Qed.

(** When the request succeeds and the page parses, the entries are the
    summaries of the blocks, in document order. *)
Lemma search_nepjol_success (W : World) (query : string) (st : State)
    (r : Response) (soup : node) :
  requests_get W base_url (search_params query) = GetReturns r ->
  status_ok r ->
  BeautifulSoup W (text r) = Ok soup ->
  fst (search_nepjol W query st)
  = Ok (map summary_of (find_all soup "div" (Some "obj_article_summary"))).
Proof.
  intros Hget Hok Hsoup. unfold search_nepjol. run_script.
  rewrite Hget, (raise_for_status_ok _ _ Hok), Hsoup.
  destruct (find_all soup "div" (Some "obj_article_summary")) as [|b bs] eqn:Hblocks.
  - reflexivity.
  - match goal with |- context [parse_results ?l ?a ?s] =>
      destruct (parse_results_run l a s) as (st' & Hrun & _) end.
    rewrite Hrun. reflexivity.
Qed.

(** In every world [search_nepjol] returns the empty list or the summaries
    of the blocks of a page that was fetched and parsed. *)
Lemma search_nepjol_cases (W : World) (query : string) (st : State) :
  fst (search_nepjol W query st) = Ok []
  \/ exists r soup,
       requests_get W base_url (search_params query) = GetReturns r
       /\ status_ok r /\ BeautifulSoup W (text r) = Ok soup
       /\ fst (search_nepjol W query st)
          = Ok (map summary_of (find_all soup "div" (Some "obj_article_summary"))).
Proof.
  destruct (requests_get W base_url (search_params query)) as [e|r] eqn:Hget.
  - left. unfold search_nepjol. run_script. rewrite Hget.
    destruct (is_RequestException e); reflexivity.
  - destruct ((400 <=? status_code r) && (status_code r <? 600))%Z eqn:Hst.
    + left. unfold search_nepjol. run_script. rewrite Hget.
      unfold raise_for_status. rewrite Hst. reflexivity.
    + destruct (BeautifulSoup W (text r)) as [soup|e] eqn:Hsoup.
      * right. exists r, soup. repeat split; try assumption.
        now apply search_nepjol_success with (r := r).
      * left. unfold search_nepjol. run_script. rewrite Hget.
        unfold raise_for_status. rewrite Hst, Hsoup. simpl.
        destruct (is_RequestException e); reflexivity.
Qed.

(** C3: a page that is fetched and parsed and has N result blocks yields
    exactly N entries, in document order; a block without anchor, href,
    authors or source still yields its entry, with the sentinel in that
    field, and a page without blocks yields the empty list. *)
Theorem search_nepjol_one_entry_per_block
    (W : World) (query : string) (st : State) (r : Response) (soup : node) :
  requests_get W base_url (search_params query) = GetReturns r ->
  status_ok r ->
  BeautifulSoup W (text r) = Ok soup ->
  exists entries : list entry,
    fst (search_nepjol W query st) = Ok entries
    /\ length entries = length (find_all soup "div" (Some "obj_article_summary"))
    /\ (find_all soup "div" (Some "obj_article_summary") = [] -> entries = [])
    /\ forall (i : nat) (block : node),
         find_all soup "div" (Some "obj_article_summary") !! i = Some block ->
         exists e : entry,
           entries !! i = Some e
           /\ e = summary_of block
           /\ (find block "a" None = None ->
               title e = "No title" /\ link e = "No link")
           /\ (forall a, find block "a" None = Some a ->
               has_attr a "href" = false -> link e = "No link")
           /\ (find block "div" (Some "authors") = None -> authors e = "No authors")
           /\ (find block "div" (Some "source") = None -> source e = "Unknown source").
Proof.
  intros Hget Hok Hsoup.
  exists (map summary_of (find_all soup "div" (Some "obj_article_summary"))).
  split; [now apply search_nepjol_success with (r := r) |].
  split; [apply length_map |].
  split; [intros ->; reflexivity |].
  intros i block Hi. exists (summary_of block).
  split; [rewrite list_lookup_fmap, Hi; reflexivity |].
  split; [reflexivity |].
  unfold summary_of, block_link, text_or; simpl.
  split; [intros ->; split; reflexivity |].
  split; [intros a -> Hno; now rewrite (has_attr_false _ _ Hno) |].
  split; intros ->; reflexivity.
Qed.

Lemma search_nepjol_sample_two_entries :
  exists entries : list entry,
    fst (search_nepjol sample_world "rice" state0) = Ok entries
    /\ length entries = 2
    /\ entries !! 1 = Some (mkEntry "No title" "No authors" "No link" "Unknown source").
Proof.
  destruct (search_nepjol_one_entry_per_block sample_world "rice" state0
              (html_page 200 sample_results_html) (document sample_blocks)
              eq_refl eq_refl eq_refl)
    as (entries & Hrun & Hlen & _ & Hblocks).
  exists entries. split; [exact Hrun |]. split; [exact Hlen |].
  destruct (Hblocks 1 (Tag "div" (<["class" := "obj_article_summary"]> ∅) []) eq_refl)
    as (e & He & -> & _).
  exact He.
Defined.

(** ** Titles of blank anchors *)

Lemma lstrip_by_all (p : ascii -> bool) (s : string) :
  str_forallb p s = true -> lstrip_by p s = EmptyString.
Proof.
  induction s as [|c s IH]; simpl; [reflexivity |].
  intros H. apply andb_true_iff in H as [Hc Hs]. rewrite Hc. now apply IH.
Qed.

Lemma strip_blank (s : string) : str_forallb isspace s = true -> strip s = EmptyString.
Proof. intros H. unfold strip, strip_by. now rewrite (lstrip_by_all _ _ H). Qed.

Lemma stripped_strings_blank (l : list node) :
  forallb (fun d => match d with
                    | NavigableString s => str_forallb isspace s
                    | _ => true
                    end) l = true ->
  List.filter nonempty
    (omap (fun d => match d with NavigableString s => Some (strip s) | _ => None end) l)
  = [].
Proof.
  induction l as [|d l IH]; [reflexivity |].
  simpl. intros H. apply andb_true_iff in H as [Hd Hl].
  destruct d as [s | s | nm attributes cs]; simpl.
  - rewrite (strip_blank _ Hd). simpl. now apply IH.
  - now apply IH.
  - now apply IH.
Qed.

Lemma get_text_strip_blank (a : node) :
  whitespace_only a = true -> get_text_strip a = EmptyString.
Proof.
  intros H. unfold get_text_strip, stripped_strings.
  now rewrite (stripped_strings_blank _ H).
Qed.

(** C9: the title of an entry is the stripped text of the block's first
    anchor whenever there is one, so an anchor with empty or whitespace-only
    text gives the empty title, not the sentinel; the sentinel "No title" is
    the title exactly of a block without anchor. *)
Theorem search_nepjol_blank_anchor_title
    (W : World) (query : string) (st : State) (r : Response) (soup : node)
    (i : nat) (block : node) :
  requests_get W base_url (search_params query) = GetReturns r ->
  status_ok r ->
  BeautifulSoup W (text r) = Ok soup ->
  find_all soup "div" (Some "obj_article_summary") !! i = Some block ->
  exists (entries : list entry) (e : entry),
    fst (search_nepjol W query st) = Ok entries
    /\ entries !! i = Some e
    /\ (forall a, find block "a" None = Some a ->
          title e = get_text_strip a
          /\ (whitespace_only a = true -> title e = EmptyString /\ title e <> "No title"))
    /\ (find block "a" None = None -> title e = "No title").
Proof.
  intros Hget Hok Hsoup Hi.
  exists (map summary_of (find_all soup "div" (Some "obj_article_summary"))),
         (summary_of block).
  split; [now apply search_nepjol_success with (r := r) |].
  split; [rewrite list_lookup_fmap, Hi; reflexivity |].
  unfold summary_of, text_or; simpl. split.
  - intros a ->. split; [reflexivity |].
    intros Hblank. rewrite (get_text_strip_blank _ Hblank). split; [reflexivity | discriminate].
  - now intros ->.
Qed.

Lemma search_nepjol_blank_world_title :
  exists (entries : list entry) (e : entry),
    fst (search_nepjol blank_world "rice" state0) = Ok entries
    /\ entries !! 0 = Some e
    /\ title e = EmptyString.
Proof.
  destruct (search_nepjol_blank_anchor_title blank_world "rice" state0
              (html_page 200 blank_results_html) (document [blank_block]) 0 blank_block
              eq_refl eq_refl eq_refl eq_refl)
    as (entries & e & Hrun & He & Hanchor & _).
  exists entries, e. split; [exact Hrun |]. split; [exact He |].
  exact (proj1 (proj2 (Hanchor blank_anchor eq_refl) eq_refl)).
Defined.

(** ** Links of the entries *)

Lemma remove_unsafe_app (a b : string) :
  remove_unsafe (a +:+ b) = remove_unsafe a +:+ remove_unsafe b.
Proof.
  unfold remove_unsafe. induction a as [|c a IH]; [reflexivity |].
  change (String c a +:+ b) with (String c (a +:+ b)). simpl.
  destruct (negb _); rewrite IH; reflexivity.
Qed.

Lemma str_find_app_notin (c : ascii) (p r : string) :
  char_in c p = false ->
  str_find c (p +:+ r) = (fun i => String.length p + i) <$> str_find c r.
Proof.
  induction p as [|d p IH]; intros Hnot.
  - change (EmptyString +:+ r) with r. simpl. now destruct (str_find c r).
  - change (String d p +:+ r) with (String d (p +:+ r)). simpl in *.
    apply orb_false_iff in Hnot as [Hd Hp]. rewrite Hd, (IH Hp).
    now destruct (str_find c r).
Qed.

Lemma splitnetloc_origin (r : string) :
  splitnetloc ("//www.nepjol.info/" +:+ r) 2 = ("www.nepjol.info", "/" +:+ r).
Proof.
  unfold splitnetloc.
  assert (Hdelim : forall c, char_in c "www.nepjol.info/" = false ->
            exists k, str_find_from c 2 ("//www.nepjol.info/" +:+ r) = None
                   \/ str_find_from c 2 ("//www.nepjol.info/" +:+ r) = Some (17 + k)).
  { intros c Hc. unfold str_find_from.
    change (str_drop 2 ("//www.nepjol.info/" +:+ r)) with ("www.nepjol.info/" +:+ r).
    rewrite (str_find_app_notin _ _ _ Hc).
    destruct (str_find c r) as [i|]; [exists (S i); right | exists 0; left]; reflexivity. }
  cbv [fold_left].
  change (str_find_from "/" 2 ("//www.nepjol.info/" +:+ r)) with (Some 17).
  change (String.length ("//www.nepjol.info/" +:+ r)) with (18 + String.length r).
  replace (Nat.min (18 + String.length r) 17) with 17 by lia.
  destruct (Hdelim "?"%char eq_refl) as [k1 [-> | ->]];
  destruct (Hdelim "#"%char eq_refl) as [k2 [-> | ->]];
  repeat match goal with |- context [Nat.min 17 (17 + ?k)] =>
     replace (Nat.min 17 (17 + k)) with 17 by lia end;
  reflexivity.
Qed.

(** The site origin followed by a path that starts with a slash is an
    absolute URL. *)
Lemma origin_absolute (rest : string) :
  absolute_url (site_origin +:+ String "/" rest) = true.
Proof.
  unfold absolute_url, urlsplit, site_origin.
  replace (lstrip_by whatwg_c0_control_or_space ("https://www.nepjol.info" +:+ String "/" rest))
    with ("https://www.nepjol.info/" +:+ rest) by reflexivity.
  rewrite remove_unsafe_app.
  generalize (remove_unsafe rest) as r. intro r.
  replace (remove_unsafe "https://www.nepjol.info/") with "https://www.nepjol.info/" by reflexivity.
  match goal with |- context [match str_find ":" ?u with _ => _ end] =>
    replace (match str_find ":" u, u with
      | Some (S i), String c0 _ =>
          if isascii_alpha c0 && str_forallb (fun c => char_in c scheme_chars) (str_take (S i) u)
          then (str_map ascii_lower (str_take (S i) u), str_drop (S (S i)) u)
          else (remove_unsafe (strip_by whatwg_c0_control_or_space EmptyString), u)
      | _, _ => (remove_unsafe (strip_by whatwg_c0_control_or_space EmptyString), u)
      end) with ("https", "//www.nepjol.info/" +:+ r) by reflexivity
  end.
  cbv iota beta.
  replace (str_take 2 ("//www.nepjol.info/" +:+ r) =? "//")%string with true by reflexivity.
  rewrite splitnetloc_origin.
  cbn -[String.append char_in str_split1].
  change (char_in "[" "www.nepjol.info") with false.
  change (char_in "]" "www.nepjol.info") with false.
  cbn -[String.append char_in str_split1].
  destruct (if char_in "#" ("/" +:+ r) then _ else _) as [u0 f].
  destruct (if char_in "?" u0 then _ else _) as [u1 q].
  reflexivity.
Qed.

Lemma startswith_slash (s : string) :
  startswith "/" s = true -> exists rest, s = String "/" rest.
Proof.
  destruct s as [|c s]; [discriminate |].
  unfold startswith. intros H. apply andb_true_iff in H as [Hc _].
  apply Ascii.eqb_eq in Hc. subst c. now exists s.
Qed.

(** C2 (amended): every entry of [search_nepjol] is the summary of a block
    of the fetched page; its link is the sentinel when the first anchor or
    its href is missing, the href prefixed with the site origin (an absolute
    URL) when the href starts with a slash, and the href as it stands
    otherwise. *)
Theorem search_nepjol_link_forms
    (W : World) (query : string) (st : State) (entries : list entry) (e : entry) :
  fst (search_nepjol W query st) = Ok entries ->
  In e entries ->
  exists (r : Response) (soup block : node),
    requests_get W base_url (search_params query) = GetReturns r
    /\ BeautifulSoup W (text r) = Ok soup
    /\ In block (find_all soup "div" (Some "obj_article_summary"))
    /\ e = summary_of block
    /\ (find block "a" None = None -> link e = "No link")
    /\ (forall a, find block "a" None = Some a ->
          tag_attrs a !! "href" = None -> link e = "No link")
    /\ (forall a href, find block "a" None = Some a ->
          tag_attrs a !! "href" = Some href -> startswith "/" href = true ->
          link e = site_origin +:+ href /\ absolute_url (link e) = true)
    /\ (forall a href, find block "a" None = Some a ->
          tag_attrs a !! "href" = Some href -> startswith "/" href = false ->
          link e = href).
Proof.
  intros Hrun Hin.
  destruct (search_nepjol_cases W query st) as [Hnil | (r & soup & Hget & Hok & Hsoup & Hmap)].
  - rewrite Hnil in Hrun. injection Hrun as <-. destruct Hin.
  - rewrite Hmap in Hrun. injection Hrun as <-.
    apply in_map_iff in Hin as (block & <- & Hblock).
    exists r, soup, block.
    repeat (split; [first [assumption | reflexivity] |]).
    unfold summary_of, block_link; simpl.
    split; [now intros -> |].
    split; [now intros a -> -> |].
    split.
    + intros a href -> -> Hslash. rewrite Hslash. split; [reflexivity |].
      destruct (startswith_slash _ Hslash) as [rest ->]. apply origin_absolute.
    + intros a href -> -> Hslash. now rewrite Hslash.
Qed.

Lemma search_nepjol_sample_link :
  let e := mkEntry "Rice yield" "A. Sharma"
             "https://www.nepjol.info/index.php/j/article/view/7" "Vol 1" in
  exists (r : Response) (soup block : node),
    requests_get sample_world base_url (search_params "rice") = GetReturns r
    /\ BeautifulSoup sample_world (text r) = Ok soup
    /\ In block (find_all soup "div" (Some "obj_article_summary"))
    /\ e = summary_of block
    /\ (find block "a" None = None -> link e = "No link")
    /\ (forall a, find block "a" None = Some a ->
          tag_attrs a !! "href" = None -> link e = "No link")
    /\ (forall a href, find block "a" None = Some a ->
          tag_attrs a !! "href" = Some href -> startswith "/" href = true ->
          link e = site_origin +:+ href /\ absolute_url (link e) = true)
    /\ (forall a href, find block "a" None = Some a ->
          tag_attrs a !! "href" = Some href -> startswith "/" href = false ->
          link e = href).
Proof.
  intros e.
  apply (search_nepjol_link_forms sample_world "rice" state0
           [e; mkEntry "No title" "No authors" "No link" "Unknown source"] e).
  - vm_compute; reflexivity.
  - left; reflexivity.
Defined.

(** C2 as stated fails: an href that is relative without a leading slash is
    kept as it is, so the link is neither the sentinel nor an absolute URL. *)
Lemma search_nepjol_relative_link_kept :
  fst (search_nepjol relative_world "rice" state0)
  = Ok [mkEntry "A study" "No authors" "article/view/1" "Unknown source"]
  /\ "article/view/1" <> "No link"
  /\ absolute_url "article/view/1" = false
  /\ startswith site_origin "article/view/1" = false.
Proof.
  split; [vm_compute; reflexivity |].
  split; [discriminate |].
  split; vm_compute; reflexivity.
Qed.

(** ** Files *)

Lemma str_app_assoc (a b c : string) : (a +:+ b) +:+ c = a +:+ (b +:+ c).
Proof.
  induction a as [|x a IH]; [reflexivity |].
  change ((String x a +:+ b) +:+ c) with (String x ((a +:+ b) +:+ c)).
  now rewrite IH.
Qed.

Lemma str_app_nil_r (a : string) : a +:+ EmptyString = a.
Proof.
  induction a as [|x a IH]; [reflexivity |].
  change (String x a +:+ EmptyString) with (String x (a +:+ EmptyString)).
  now rewrite IH.
Qed.

Lemma write_insert (filename data c : string) (fs : gmap string string)
    (l : list (level * string)) (co : list string) :
  write filename data (mkState (<[filename := c]> fs) l co)
  = (Ok tt, mkState (<[filename := c +:+ data]> fs) l co).
Proof. unfold write. simpl. now rewrite alter_insert_eq. Qed.

Lemma write_chunks_run (filename : string) (chunks : list string) (err : option exn) :
  forall (c : string) (fs : gmap string string) (l : list (level * string))
         (co : list string),
  write_chunks filename chunks err (mkState (<[filename := c]> fs) l co)
  = (match err with Some e => Raise e | None => Ok tt end,
     mkState (<[filename := c +:+ body_bytes chunks]> fs) l co).
Proof.
  induction chunks as [|chunk rest IH]; intros c fs l co; simpl.
  - rewrite str_app_nil_r. now destruct err.
  - unfold bind. rewrite write_insert, IH, str_app_assoc. reflexivity.
Qed.

Lemma download_file_non_pdf_run
    (W : World) (url filename : string) (st : State) (r : Response) :
  requests_get W url [] = GetReturns r ->
  str_contains "application/pdf" (default EmptyString (content_type r)) = false ->
  fst (download_file W url filename st) = Ok false
  /\ files (snd (download_file W url filename st)) = files st.
Proof.
  intros Hget Htype. unfold download_file. run_script. rewrite Hget.
  unfold raise_for_status.
  destruct ((400 <=? status_code r) && (status_code r <? 600))%Z; simpl.
  - split; reflexivity.
  - rewrite Htype. simpl. split; reflexivity.
Qed.

(** C4: when the Content-Type of the response does not contain
    [application/pdf], whatever the status code, [download_file] returns
    [False] and leaves every file as it was. *)
Theorem download_file_rejects_non_pdf
    (W : World) (url filename : string) (st : State) (r : Response) :
  requests_get W url [] = GetReturns r ->
  str_contains "application/pdf" (default EmptyString (content_type r)) = false ->
  fst (download_file W url filename st) = Ok false
  /\ files (snd (download_file W url filename st)) = files st.
Proof. apply download_file_non_pdf_run. Qed.

Lemma download_file_html_refused :
  status_code (html_page 200 viewer_html) = 200%Z
  /\ fst (download_file site_world "https://site/view/1" "paper.pdf" state0) = Ok false
  /\ files (snd (download_file site_world "https://site/view/1" "paper.pdf" state0)) = ∅.
Proof.
  split; [reflexivity |].
  apply (download_file_rejects_non_pdf site_world "https://site/view/1" "paper.pdf"
           state0 (html_page 200 viewer_html)); reflexivity.
Defined.

(** The run of [download_file] on a PDF response whose file can be opened. *)
Lemma download_file_pdf_run
    (W : World) (url filename : string) (st : State) (r : Response) :
  requests_get W url [] = GetReturns r ->
  status_ok r ->
  str_contains "application/pdf" (default EmptyString (content_type r)) = true ->
  open_succeeds W filename = true ->
  let written := <[filename := body_bytes (iter_content r)]> (files st) in
  fst (download_file W url filename st)
  = Ok (match iter_error r with
        | Some _ => false
        | None => bool_decide (is_Some (interference W written !! filename))
        end)
  /\ files (snd (download_file W url filename st))
     = match iter_error r with
       | Some _ => written
       | None => interference W written
       end.
Proof.
  intros Hget Hok Htype Hopen written. unfold download_file. run_script.
  rewrite Hget, (raise_for_status_ok _ _ Hok), Htype. simpl.
  unfold open_w. rewrite Hopen. simpl.
  rewrite write_chunks_run.
  change (EmptyString +:+ body_bytes (iter_content r)) with (body_bytes (iter_content r)).
  fold written.
  destruct (iter_error r) as [e|]; simpl.
  - destruct (is_RequestException e); split; reflexivity.
  - unfold os_path_exists. simpl.
    destruct (bool_decide (is_Some (interference W written !! filename)));
      split; reflexivity.
Qed.

(** C5: [download_file] returns [True] only when the response was
    streamed to the file up to its last chunk and the path exists afterwards;
    when the path does not exist after the write loop, it returns [False]. *)
Theorem download_file_true_only_when_present
    (W : World) (url filename : string) (st : State) :
  (fst (download_file W url filename st) = Ok true ->
   exists r : Response,
     requests_get W url [] = GetReturns r
     /\ status_ok r
     /\ str_contains "application/pdf" (default EmptyString (content_type r)) = true
     /\ open_succeeds W filename = true
     /\ iter_error r = None
     /\ files (snd (download_file W url filename st))
        = interference W (<[filename := body_bytes (iter_content r)]> (files st))
     /\ is_Some (files (snd (download_file W url filename st)) !! filename))
  /\ (forall r : Response,
        requests_get W url [] = GetReturns r ->
        status_ok r ->
        str_contains "application/pdf" (default EmptyString (content_type r)) = true ->
        open_succeeds W filename = true ->
        iter_error r = None ->
        interference W (<[filename := body_bytes (iter_content r)]> (files st)) !! filename
        = None ->
        fst (download_file W url filename st) = Ok false).
Proof.
  split.
  - intros Htrue.
    destruct (requests_get W url []) as [e|r] eqn:Hget.
    { exfalso. revert Htrue. unfold download_file. run_script. rewrite Hget.
      destruct (is_RequestException e); discriminate. }
    destruct ((400 <=? status_code r) && (status_code r <? 600))%Z eqn:Hst.
    { exfalso. revert Htrue. unfold download_file. run_script. rewrite Hget.
      unfold raise_for_status. rewrite Hst. discriminate. }
    destruct (str_contains "application/pdf" (default EmptyString (content_type r)))
      eqn:Htype.
    2:{ exfalso. destruct (download_file_non_pdf_run W url filename st r Hget Htype)
          as [Hfalse _]. rewrite Hfalse in Htrue. discriminate. }
    destruct (open_succeeds W filename) eqn:Hopen.
    2:{ exfalso. revert Htrue. unfold download_file. run_script.
        rewrite Hget. unfold raise_for_status. rewrite Hst, Htype. simpl.
        unfold open_w. rewrite Hopen. discriminate. }
    destruct (download_file_pdf_run W url filename st r Hget Hst Htype Hopen)
      as [Hres Hfiles].
    exists r. rewrite Hres in Htrue. rewrite Hfiles.
    destruct (iter_error r) as [e|]; [discriminate |].
    injection Htrue as Htrue. apply bool_decide_eq_true in Htrue.
    repeat split; assumption.
  - intros r Hget Hok Htype Hopen Herr Hgone.
    destruct (download_file_pdf_run W url filename st r Hget Hok Htype Hopen)
      as [Hres _].
    rewrite Hres, Herr, Hgone. reflexivity.
Qed.

Lemma download_file_pdf_world_written :
  fst (download_file pdf_world "https://site/download/1/pdf" "paper.pdf" state0) = Ok true
  /\ files (snd (download_file pdf_world "https://site/download/1/pdf" "paper.pdf" state0))
       !! "paper.pdf" = Some "%PDF-1.4 body"
  /\ fst (download_file vanishing_world "https://site/download/1/pdf" "paper.pdf" state0)
     = Ok false.
Proof.
  pose proof (download_file_true_only_when_present pdf_world
                "https://site/download/1/pdf" "paper.pdf" state0) as [Honly _].
  pose proof (download_file_true_only_when_present vanishing_world
                "https://site/download/1/pdf" "paper.pdf" state0) as [_ Hgone].
  assert (Htrue : fst (download_file pdf_world "https://site/download/1/pdf"
                         "paper.pdf" state0) = Ok true) by (vm_compute; reflexivity).
  split; [exact Htrue |].
  split.
  - destruct (Honly Htrue) as (r & Hget & _ & _ & _ & _ & Hfiles & _).
    injection Hget as <-. rewrite Hfiles. vm_compute. reflexivity.
  - apply (Hgone pdf_response); vm_compute; reflexivity.
Defined.

Lemma log_text_app (a b : list (level * string)) :
  log_text (a ++ b) = log_text a +:+ log_text b.
Proof.
  induction a as [|r a IH]; [reflexivity |].
  cbn [app log_text]. now rewrite IH, str_app_assoc.
Qed.

(** A step that leaves the script's own files and appends records to the
    log changes one file of the file system, the run's log file, by
    appending the lines of these records. *)
Lemma file_system_frame (st st' : State) (records : list (level * string)) :
  files st' = files st ->
  log st' = log st ++ records ->
  (forall path, path <> run_log -> file_system st' !! path = file_system st !! path)
  /\ file_system st' !! run_log = Some (log_text (log st) +:+ log_text records).
Proof.
  intros Hfiles Hlog. unfold file_system. rewrite Hfiles, Hlog, log_text_app. split.
  - intros path Hpath. rewrite !lookup_insert_ne by congruence. reflexivity.
  - apply lookup_insert_eq.
Qed.

(** C10 (amended): with an empty results list [save_to_file] returns
    after its two log records: it creates, opens or writes no file of its
    own and prints nothing; the only file that changes is the log file of
    the run, which gets the two records. *)
Theorem save_to_file_empty_no_effect
    (W : World) (query : string) (filename : option string) (st : State) :
  fst (save_to_file W [] query filename st) = Ok tt
  /\ files (snd (save_to_file W [] query filename st)) = files st
  /\ console (snd (save_to_file W [] query filename st)) = console st
  /\ log (snd (save_to_file W [] query filename st))
     = log st ++ [(INFO, "Saving results to file for query: '{query}'");
                  (WARNING, "No results to save")]
  /\ (forall path, path <> run_log ->
        file_system (snd (save_to_file W [] query filename st)) !! path
        = file_system st !! path)
  /\ file_system (snd (save_to_file W [] query filename st)) !! run_log
     = Some (log_text (log st)
             +:+ log_text [(INFO, "Saving results to file for query: '{query}'");
                           (WARNING, "No results to save")]).
Proof.
  assert (Hrun : save_to_file W [] query filename st
                 = (Ok tt,
                    mkState (files st)
                      (log st ++ [(INFO, "Saving results to file for query: '{query}'");
                                  (WARNING, "No results to save")])
                      (console st))).
  { unfold save_to_file. run_script. now rewrite <- app_assoc. }
  rewrite Hrun. cbn [fst snd files log console].
  repeat (split; [reflexivity |]).
  now apply file_system_frame.
Qed.

(** C10 as stated fails: the two logger calls of the empty case write to
    the log file of the run, so the file system does not stay as it was. *)
Lemma save_to_file_empty_writes_log :
  file_system state0 !! run_log = Some EmptyString
  /\ file_system (snd (save_to_file pdf_world [] "rice" None state0)) !! run_log
     = Some (log_line (INFO, "Saving results to file for query: '{query}'")
             +:+ log_line (WARNING, "No results to save"))
  /\ file_system (snd (save_to_file pdf_world [] "rice" None state0))
     <> file_system state0.
Proof.
  split; [reflexivity |]. split; [reflexivity |].
  intros Heq.
  assert (Hl : file_system (snd (save_to_file pdf_world [] "rice" None state0)) !! run_log
               = file_system state0 !! run_log) by now rewrite Heq.
  vm_compute in Hl. discriminate.
Qed.

(** ** No exception leaves the script's functions *)

Lemma transport_failure_status (r : Response) :
  (400 <= status_code r < 600)%Z ->
  ((400 <=? status_code r) && (status_code r <? 600))%Z = true.
Proof.
  intros H. apply andb_true_iff. split; [apply Z.leb_le | apply Z.ltb_lt]; lia.
Qed.

(** A [try] whose two handlers log and return a value never raises. *)
Lemma try_except_returns {A : Type} (body : M A) (a : A) (m1 m2 : string) (st : State) :
  exists v, fst (try_except body
                   (fun _ => logger ERROR m1 ;; ret a)
                   (fun _ => logger ERROR m2 ;; ret a) st) = Ok v.
Proof.
  unfold try_except. destruct (body st) as [[v|e] st'].
  - exists v. reflexivity.
  - exists a. destruct (is_RequestException e); reflexivity.
Qed.

Lemma search_nepjol_returns (W : World) (query : string) (st : State) :
  exists entries, fst (search_nepjol W query st) = Ok entries.
Proof.
  unfold search_nepjol. unfold bind at 1. unfold logger at 1.
  apply try_except_returns.
Qed.

Lemma find_pdf_link_returns (W : World) (article_url : string) (st : State) :
  exists l, fst (find_pdf_link W article_url st) = Ok l.
Proof.
  unfold find_pdf_link. unfold bind at 1. unfold logger at 1.
  apply try_except_returns.
Qed.

Lemma search_nepjol_transport_failure (W : World) (query : string) (st : State) :
  transport_failure (requests_get W base_url (search_params query)) ->
  fst (search_nepjol W query st) = Ok [].
Proof.
  unfold transport_failure. intros Hfail. unfold search_nepjol. run_script.
  destruct (requests_get W base_url (search_params query)) as [e|r].
  - destruct (is_RequestException e); reflexivity.
  - unfold raise_for_status. rewrite (transport_failure_status _ Hfail). reflexivity.
Qed.

Lemma find_pdf_link_transport_failure (W : World) (article_url : string) (st : State) :
  transport_failure (requests_get W article_url []) ->
  fst (find_pdf_link W article_url st) = Ok None.
Proof.
  unfold transport_failure. intros Hfail. unfold find_pdf_link. run_script.
  destruct (requests_get W article_url []) as [e|r].
  - destruct (is_RequestException e); reflexivity.
  - unfold raise_for_status. rewrite (transport_failure_status _ Hfail). reflexivity.
Qed.

Lemma find_pdf_link_no_viewer_anchor
    (W : World) (article_url : string) (st : State) (r : Response) (soup : node) :
  requests_get W article_url [] = GetReturns r ->
  status_ok r ->
  BeautifulSoup W (text r) = Ok soup ->
  (find soup "a" (Some "obj_galley_link pdf") = None
   \/ exists tag, find soup "a" (Some "obj_galley_link pdf") = Some tag
                  /\ has_attr tag "href" = false) ->
  fst (find_pdf_link W article_url st) = Ok None.
Proof.
  intros Hget Hok Hsoup Hmissing. unfold find_pdf_link. run_script.
  rewrite Hget, (raise_for_status_ok _ _ Hok), Hsoup.
  destruct Hmissing as [-> | (tag & -> & ->)]; reflexivity.
Qed.

Lemma find_pdf_link_viewer_failure
    (W : World) (article_url : string) (st : State) (r : Response)
    (soup tag : node) (href viewer_url : string) :
  requests_get W article_url [] = GetReturns r ->
  status_ok r ->
  BeautifulSoup W (text r) = Ok soup ->
  find soup "a" (Some "obj_galley_link pdf") = Some tag ->
  tag_attrs tag !! "href" = Some href ->
  urljoin (url_check_bracketed_netloc W) (url_checknetloc_nfkc W) article_url href
  = Ok viewer_url ->
  transport_failure (requests_get W viewer_url []) ->
  fst (find_pdf_link W article_url st) = Ok None.
Proof.
  intros Hget Hok Hsoup Hfind Hhref Hjoin Hfail.
  unfold find_pdf_link. run_script.
  rewrite Hget, (raise_for_status_ok _ _ Hok), Hsoup, Hfind.
  rewrite (has_attr_lookup _ _ _ Hhref), (getitem_lookup _ _ _ Hhref), Hjoin.
  unfold transport_failure in Hfail.
  destruct (requests_get W viewer_url []) as [e|r2].
  - destruct (is_RequestException e); reflexivity.
  - unfold raise_for_status. rewrite (transport_failure_status _ Hfail). reflexivity.
Qed.

(** C6 (amended): [search_nepjol] and [find_pdf_link] never raise; a
    missing viewer anchor or href gives [None]; and a transport failure
    (an exception of [requests.get], or a status from 400 to 599) at the
    search request or at either hop gives the empty list, respectively
    [None]. *)
Theorem search_and_find_never_raise (W : World) (st : State) :
  (forall query, exists entries, fst (search_nepjol W query st) = Ok entries)
  /\ (forall article_url, exists l, fst (find_pdf_link W article_url st) = Ok l)
  /\ (forall query,
        transport_failure (requests_get W base_url (search_params query)) ->
        fst (search_nepjol W query st) = Ok [])
  /\ (forall article_url,
        transport_failure (requests_get W article_url []) ->
        fst (find_pdf_link W article_url st) = Ok None)
  /\ (forall article_url r soup,
        requests_get W article_url [] = GetReturns r ->
        status_ok r ->
        BeautifulSoup W (text r) = Ok soup ->
        (find soup "a" (Some "obj_galley_link pdf") = None
         \/ exists tag, find soup "a" (Some "obj_galley_link pdf") = Some tag
                        /\ has_attr tag "href" = false) ->
        fst (find_pdf_link W article_url st) = Ok None)
  /\ (forall article_url r soup tag href viewer_url,
        requests_get W article_url [] = GetReturns r ->
        status_ok r ->
        BeautifulSoup W (text r) = Ok soup ->
        find soup "a" (Some "obj_galley_link pdf") = Some tag ->
        tag_attrs tag !! "href" = Some href ->
        urljoin (url_check_bracketed_netloc W) (url_checknetloc_nfkc W) article_url href
        = Ok viewer_url ->
        transport_failure (requests_get W viewer_url []) ->
        fst (find_pdf_link W article_url st) = Ok None).
Proof.
  split; [intros; apply search_nepjol_returns |].
  split; [intros; apply find_pdf_link_returns |].
  split; [intros; now apply search_nepjol_transport_failure |].
  split; [intros; now apply find_pdf_link_transport_failure |].
  split; [intros; now apply find_pdf_link_no_viewer_anchor with (r := r) (soup := soup) |].
  intros. now apply find_pdf_link_viewer_failure
            with (r := r) (soup := soup) (tag := tag) (href := href)
                 (viewer_url := viewer_url).
Qed.

Lemma not_found_and_unreachable_give_nothing :
  fst (search_nepjol notfound_world "rice" state0) = Ok []
  /\ fst (search_nepjol down_world "rice" state0) = Ok []
  /\ fst (find_pdf_link down_world "https://site/a/1" state0) = Ok None
  /\ fst (find_pdf_link site_world "https://site/view/1" state0) = Ok None.
Proof.
  destruct (search_and_find_never_raise notfound_world state0)
    as (_ & _ & Hsearch & _).
  destruct (search_and_find_never_raise down_world state0)
    as (_ & _ & Hsearch' & Hfind & _).
  destruct (search_and_find_never_raise site_world state0)
    as (_ & _ & _ & _ & Hanchor & _).
  split; [apply (Hsearch "rice"); vm_compute; split; [discriminate | reflexivity] |].
  split; [apply (Hsearch' "rice"); exact I |].
  split; [apply (Hfind "https://site/a/1"); exact I |].
  apply (Hanchor "https://site/view/1" (html_page 200 viewer_html)
           (document [anchor "download" "/download/1/pdf" "Download"]));
    [reflexivity | reflexivity | reflexivity | left; reflexivity].
Defined.

(** C6 as stated fails for a status that is neither 2xx nor rejected by
    [raise_for_status]: a page served with status 300 is scraped like any
    other. *)
Lemma status_300_is_not_a_failure :
  requests_get multiple_choices_world base_url (search_params "rice")
  = GetReturns (html_page 300 sample_results_html)
  /\ fst (search_nepjol multiple_choices_world "rice" state0)
     = Ok [mkEntry "Rice yield" "A. Sharma"
             "https://www.nepjol.info/index.php/j/article/view/7" "Vol 1";
           mkEntry "No title" "No authors" "No link" "Unknown source"]
  /\ fst (find_pdf_link multiple_choices_world "https://site/a/1" state0)
     = Ok (Some "https://site/download/1/pdf").
Proof. repeat split; vm_compute; reflexivity. Qed.

(** ** The name of the downloaded file *)

Lemma str_forallb_app (p : ascii -> bool) (a b : string) :
  str_forallb p (a +:+ b) = str_forallb p a && str_forallb p b.
Proof.
  induction a as [|c a IH]; [reflexivity |].
  change (String c a +:+ b) with (String c (a +:+ b)). simpl.
  now rewrite IH, andb_assoc.
Qed.

Lemma str_forallb_filter (p : ascii -> bool) (s : string) :
  str_forallb p (str_filter p s) = true.
Proof.
  induction s as [|c s IH]; [reflexivity |].
  simpl. destruct (p c) eqn:Hc; simpl; [now rewrite Hc |]; exact IH.
Qed.

(** [rstrip] removes a suffix made of the stripped characters. *)
Lemma rstrip_by_suffix (p : ascii -> bool) (s : string) :
  exists ws, s = rstrip_by p s +:+ ws /\ str_forallb p ws = true.
Proof.
  induction s as [|c s (ws & Heq & Hws)].
  - exists EmptyString. split; reflexivity.
  - simpl. destruct (rstrip_by p s) as [|d r] eqn:Hr.
    + change (EmptyString +:+ ws) with ws in Heq. subst s.
      destruct (p c) eqn:Hc.
      * exists (String c ws). split; [reflexivity |]. simpl. now rewrite Hc.
      * exists ws. split; [reflexivity | exact Hws].
    + exists ws. split; [| exact Hws].
      change (String c (String d r) +:+ ws) with (String c (String d r +:+ ws)).
      now rewrite <- Heq.
Qed.

(** What [rstrip] leaves does not end with a stripped character. *)
Lemma rstrip_by_last (p : ascii -> bool) (s : string) :
  forall (t : string) (c : ascii),
  rstrip_by p s = t +:+ String c EmptyString -> p c = false.
Proof.
  induction s as [|x s IH]; intros t c Heq.
  - destruct t; discriminate.
  - simpl in Heq. destruct (rstrip_by p s) as [|d r] eqn:Hr.
    + destruct (p x) eqn:Hx.
      * destruct t; discriminate.
      * destruct t as [|y t].
        -- injection Heq as <-. exact Hx.
        -- change (String y t +:+ String c EmptyString)
             with (String y (t +:+ String c EmptyString)) in Heq.
           injection Heq as _ Heq. destruct t; discriminate.
    + destruct t as [|y t].
      * discriminate.
      * change (String y t +:+ String c EmptyString)
          with (String y (t +:+ String c EmptyString)) in Heq.
        injection Heq as _ Heq. apply (IH t c). exact Heq.
Qed.

Lemma points_app (a b : string) : points (a +:+ b) = points a ++ points b.
Proof.
  unfold points. induction a as [|c a IH]; [reflexivity |].
  change (String c a +:+ b) with (String c (a +:+ b)). simpl. now rewrite IH.
Qed.

Lemma allowed_point_latin (c : ascii) :
  allowed_point latin_isalnum (N_of_ascii c) = safe_char c.
Proof. destruct c as [[] [] [] [] [] [] [] []]; reflexivity. Qed.

Lemma latin_isspace_point (c : ascii) : latin_isspace (N_of_ascii c) = isspace c.
Proof. unfold latin_isspace. now rewrite ascii_N_embedding. Qed.

Lemma points_str_filter (s : string) :
  points (str_filter safe_char s) = List.filter (allowed_point latin_isalnum) (points s).
Proof.
  unfold points. induction s as [|c s IH]; [reflexivity |].
  cbn [str_filter list_ascii_of_string map List.filter].
  rewrite allowed_point_latin. destruct (safe_char c); [| exact IH].
  cbn [list_ascii_of_string map]. now rewrite IH.
Qed.

Lemma points_rstrip (s : string) :
  points (rstrip_by isspace s) = rstrip_points latin_isspace (points s).
Proof.
  unfold points. induction s as [|c s IH]; [reflexivity |].
  cbn [rstrip_by list_ascii_of_string map rstrip_points].
  rewrite <- IH, latin_isspace_point.
  destruct (rstrip_by isspace s); [destruct (isspace c) |]; reflexivity.
Qed.

Lemma rstrip_points_suffix (isspace' : N -> bool) (l : list N) :
  exists ws, l = rstrip_points isspace' l ++ ws /\ Forall (fun c => isspace' c = true) ws.
Proof.
  induction l as [|c l (ws & Heq & Hws)].
  - exists []. split; [reflexivity | constructor].
  - cbn [rstrip_points]. destruct (rstrip_points isspace' l) as [|d r] eqn:Hr.
    + simpl in Heq. subst l. destruct (isspace' c) eqn:Hc.
      * exists (c :: ws). split; [reflexivity | now constructor].
      * exists ws. split; [reflexivity | exact Hws].
    + exists ws. split; [| exact Hws]. simpl. now rewrite Heq at 1.
Qed.

Lemma rstrip_points_last (isspace' : N -> bool) (l : list N) :
  forall (t : list N) (c : N),
  rstrip_points isspace' l = t ++ [c] -> isspace' c = false.
Proof.
  induction l as [|x l IH]; intros t c Heq.
  - destruct t; discriminate.
  - cbn [rstrip_points] in Heq. destruct (rstrip_points isspace' l) as [|d r] eqn:Hr.
    + destruct (isspace' x) eqn:Hx.
      * destruct t; discriminate.
      * destruct t as [|y t]; [injection Heq as <-; exact Hx |].
        injection Heq as _ Heq. destruct t; discriminate.
    + destruct t as [|y t]; [discriminate |].
      injection Heq as _ Heq. exact (IH t c Heq).
Qed.

Lemma rstrip_points_id (isspace' : N -> bool) (l : list N) :
  (forall t c, l = t ++ [c] -> isspace' c = false) -> rstrip_points isspace' l = l.
Proof.
  intros Hlast. destruct (rstrip_points_suffix isspace' l) as (ws & Heq & Hws).
  destruct ws as [|w ws'] using rev_ind; [now rewrite app_nil_r in Heq |].
  exfalso. apply Forall_app in Hws as [_ Hw]. inversion Hw as [|? ? Hspace _]; subst.
  rewrite app_assoc in Heq. rewrite (Hlast _ _ Heq) in Hspace. discriminate.
Qed.

Lemma filter_all (p : N -> bool) (l : list N) :
  Forall (fun c => p c = true) (List.filter p l).
Proof.
  induction l as [|c l IH]; [constructor |].
  simpl. destruct (p c) eqn:Hc; [now constructor | exact IH].
Qed.

Lemma filter_id (p : N -> bool) (l : list N) :
  Forall (fun c => p c = true) l -> List.filter p l = l.
Proof.
  induction 1 as [|c l Hc _ IH]; [reflexivity |]. simpl. now rewrite Hc, IH.
Qed.

(** C7: the file name is the title without the characters that are
    neither alphanumeric nor space, hyphen or underscore, without the
    trailing whitespace, followed by [.pdf].  Over all code points and for
    any tables of the alphanumeric and whitespace characters: the allowed
    characters of the title are all kept, in their order, up to a run of
    whitespace at the end; the stem has only allowed characters and does not
    end with whitespace; a title of allowed characters that does not end
    with whitespace is kept whole.  The embedding over [string] is this
    function at the tables of the code points below 256. *)
Theorem pdf_filename_sanitized :
  (forall (unicode_isalnum unicode_isspace : N -> bool) (article_title : list N),
     exists stem ws : list N,
       pdf_filename_points unicode_isalnum unicode_isspace article_title
       = stem ++ points ".pdf"
       /\ List.filter
            (fun c => unicode_isalnum c || (c =? 32)%N || (c =? 45)%N || (c =? 95)%N)
            article_title
          = stem ++ ws
       /\ Forall (fun c => unicode_isspace c = true) ws
       /\ Forall (fun c => unicode_isalnum c = true \/ c = 32%N \/ c = 45%N \/ c = 95%N)
                 stem
       /\ (forall t c, stem = t ++ [c] -> unicode_isspace c = false)
       /\ (Forall (fun c => unicode_isalnum c = true \/ c = 32%N \/ c = 45%N \/ c = 95%N)
                  article_title ->
           (forall t c, article_title = t ++ [c] -> unicode_isspace c = false) ->
           pdf_filename_points unicode_isalnum unicode_isspace article_title
           = article_title ++ points ".pdf"))
  /\ (forall article_title : string,
        points (pdf_filename article_title)
        = pdf_filename_points latin_isalnum latin_isspace (points article_title)).
Proof.
  split.
  - intros isalnum' isspace' article_title.
    destruct (rstrip_points_suffix isspace'
                (List.filter (allowed_point isalnum') article_title))
      as (ws & Heq & Hws).
    assert (Hallowed : forall c, allowed_point isalnum' c = true ->
              isalnum' c = true \/ c = 32%N \/ c = 45%N \/ c = 95%N).
    { intros c Hc. unfold allowed_point in Hc.
      repeat (apply orb_true_iff in Hc as [Hc | Hc]);
        [tauto | | |]; apply N.eqb_eq in Hc; tauto. }
    exists (clean_title_points isalnum' isspace' article_title), ws.
    split; [reflexivity |].
    split; [exact Heq |].
    split; [exact Hws |].
    split.
    { pose proof (filter_all (allowed_point isalnum') article_title) as Hall.
      unfold clean_title_points. rewrite Heq in Hall.
      apply Forall_app in Hall as [Hstem _].
      eapply Forall_impl; [exact Hstem | exact Hallowed]. }
    split.
    { intros t c Hlast. exact (rstrip_points_last isspace' _ t c Hlast). }
    intros Hall Hlast. unfold pdf_filename_points, clean_title_points.
    rewrite (filter_id (allowed_point isalnum')).
    + now rewrite (rstrip_points_id isspace' _ Hlast).
    + eapply Forall_impl; [exact Hall |].
      intros c Hc. unfold allowed_point.
      destruct Hc as [Hc | [-> | [-> | ->]]];
        [rewrite Hc; reflexivity | | |]; now rewrite ?orb_true_r.
  - intros article_title.
    unfold pdf_filename, clean_title, sanitize, rstrip, pdf_filename_points,
      clean_title_points.
    now rewrite points_app, points_rstrip, points_str_filter.
Qed.

(** ** The export file and its reader *)

Lemma char_in_app (c : ascii) (a b : string) :
  char_in c (a +:+ b) = char_in c a || char_in c b.
Proof.
  induction a as [|d a IH]; [reflexivity |].
  change (String d a +:+ b) with (String d (a +:+ b)). simpl.
  now rewrite IH, orb_assoc.
Qed.

Lemma single_line_app (a b : string) :
  single_line a = true -> single_line b = true -> single_line (a +:+ b) = true.
Proof.
  unfold single_line. rewrite char_in_app.
  destruct (char_in LF a), (char_in LF b); simpl; congruence.
Qed.

Lemma read_line_app (line rest : string) :
  single_line line = true -> read_line (line +:+ nl +:+ rest) = (line, rest).
Proof.
  unfold single_line. induction line as [|c line IH]; intros Hline.
  - reflexivity.
  - change (String c line +:+ nl +:+ rest) with (String c (line +:+ nl +:+ rest)).
    cbn [char_in] in Hline. cbn [read_line].
    apply negb_true_iff, orb_false_iff in Hline as [Hc Hrest].
    rewrite Ascii.eqb_sym, Hc, IH; [reflexivity |].
    now apply negb_true_iff.
Qed.

Lemma strip_prefix_app (p s : string) : strip_prefix p (p +:+ s) = Some s.
Proof.
  induction p as [|c p IH]; [reflexivity |].
  change (String c p +:+ s) with (String c (p +:+ s)). cbn [strip_prefix].
  now rewrite Ascii.eqb_refl.
Qed.

Lemma startswith_app (p s : string) : startswith p (p +:+ s) = true.
Proof.
  induction p as [|c p IH]; [reflexivity |].
  change (String c p +:+ s) with (String c (p +:+ s)).
  unfold startswith; fold startswith. now rewrite Ascii.eqb_refl.
Qed.

Lemma lstrip_by_app (p : ascii -> bool) (a b : string) :
  str_forallb p a = true -> lstrip_by p (a +:+ b) = lstrip_by p b.
Proof.
  induction a as [|c a IH]; intros Ha; [reflexivity |].
  change (String c a +:+ b) with (String c (a +:+ b)). simpl in *.
  apply andb_true_iff in Ha as [Hc Ha]. rewrite Hc. now apply IH.
Qed.

Lemma isdigit_digit_char (n : nat) : isdigit (digit_char (n mod 10)) = true.
Proof.
  assert (Hlt : n mod 10 < 10) by (apply Nat.mod_upper_bound; lia).
  generalize dependent (n mod 10). intros d Hlt.
  do 10 (destruct d as [|d]; [reflexivity |]). lia.
Qed.

Lemma str_of_nat_aux_digits (fuel : nat) :
  forall (n : nat) (acc : string),
  str_forallb isdigit acc = true ->
  str_forallb isdigit (str_of_nat_aux fuel n acc) = true.
Proof.
  assert (Hcons : forall n acc, str_forallb isdigit acc = true ->
            str_forallb isdigit (String (digit_char (n mod 10)) acc) = true).
  { intros n acc Hacc. cbn [str_forallb]. rewrite isdigit_digit_char. exact Hacc. }
  induction fuel as [|fuel IH]; intros n acc Hacc; cbn [str_of_nat_aux].
  - apply Hcons, Hacc.
  - destruct (n / 10 =? 0).
    + apply Hcons, Hacc.
    + apply IH, Hcons, Hacc.
Qed.

Lemma str_of_nat_digits (n : nat) : str_forallb isdigit (str_of_nat n) = true.
Proof. unfold str_of_nat. apply str_of_nat_aux_digits. reflexivity. Qed.

Lemma str_of_nat_aux_nonempty (fuel : nat) :
  forall (n : nat) (acc : string), nonempty (str_of_nat_aux fuel n acc) = true.
Proof.
  induction fuel as [|fuel IH]; intros n acc; cbn [str_of_nat_aux]; [reflexivity |].
  destruct (n / 10 =? 0); [reflexivity | apply IH].
Qed.

Lemma nonempty_app (a b : string) : nonempty a = true -> nonempty (a +:+ b) = true.
Proof. destruct a; [discriminate | reflexivity]. Qed.

Lemma digits_single_line (s : string) :
  str_forallb isdigit s = true -> single_line s = true.
Proof.
  unfold single_line. induction s as [|c s IH]; [reflexivity |].
  cbn [str_forallb char_in]. intros H. apply andb_true_iff in H as [Hc Hs].
  apply negb_true_iff, orb_false_iff. split.
  - destruct (Ascii.eqb LF c) eqn:Heq; [| reflexivity].
    apply Ascii.eqb_eq in Heq. subst c. discriminate.
  - apply negb_true_iff. now apply IH.
Qed.

Lemma str_length_app (a b : string) :
  String.length (a +:+ b) = String.length a + String.length b.
Proof.
  induction a as [|c a IH]; [reflexivity |].
  change (String c a +:+ b) with (String c (a +:+ b)). simpl. now rewrite IH.
Qed.

(** The reader takes back one record in front of any text. *)
Lemma read_record_text (i : nat) (r : entry) (rest : string) :
  entry_single_line r = true ->
  read_record (record_text i r +:+ rest) = Some (r, rest).
Proof.
  unfold entry_single_line. intros Hr.
  apply andb_true_iff in Hr as [Hr Hlink].
  apply andb_true_iff in Hr as [Hr Hsource].
  apply andb_true_iff in Hr as [Htitle Hauthors].
  unfold record_text, read_record.
  replace ((((str_of_nat i +:+ ". " +:+ title r +:+ nl)
             +:+ ("   Authors: " +:+ authors r +:+ nl)
             +:+ ("   Source: " +:+ source r +:+ nl)
             +:+ "   Link: " +:+ link r +:+ nl +:+ nl)) +:+ rest)
    with ((str_of_nat i +:+ ". " +:+ title r) +:+ nl
          +:+ ("   Authors: " +:+ authors r) +:+ nl
          +:+ ("   Source: " +:+ source r) +:+ nl
          +:+ ("   Link: " +:+ link r) +:+ nl
          +:+ EmptyString +:+ nl +:+ rest)
    by (repeat rewrite str_app_assoc; reflexivity).
  rewrite read_line_app
    by (apply single_line_app; [apply digits_single_line, str_of_nat_digits |];
        apply single_line_app; [reflexivity | assumption]).
  rewrite read_line_app by (apply single_line_app; [reflexivity | assumption]).
  rewrite read_line_app by (apply single_line_app; [reflexivity | assumption]).
  rewrite read_line_app by (apply single_line_app; [reflexivity | assumption]).
  rewrite read_line_app by reflexivity.
  rewrite lstrip_by_app by apply str_of_nat_digits.
  change (lstrip_by isdigit (". " +:+ title r)) with (". " +:+ title r).
  rewrite !strip_prefix_app. simpl. now destruct r.
Qed.

Lemma read_records_export (results : list entry) :
  forall (i fuel : nat),
  length results < fuel ->
  Forall (fun r => entry_single_line r = true) results ->
  read_records fuel (export_records i results) = Some results.
Proof.
  induction results as [|r rest IH]; intros i fuel Hfuel Hall.
  - destruct fuel; [simpl in Hfuel; lia | reflexivity].
  - destruct fuel as [|fuel]; [simpl in Hfuel; lia |].
    inversion Hall as [|? ? Hr Hrest]; subst.
    simpl. rewrite (read_record_text _ _ _ Hr).
    replace (nonempty (record_text i r +:+ export_records (S i) rest)) with true.
    + simpl. rewrite IH; [reflexivity | simpl in Hfuel; lia | assumption].
    + symmetry. unfold record_text. rewrite !str_app_assoc.
      apply nonempty_app. apply str_of_nat_aux_nonempty.
Qed.

Lemma export_records_length (results : list entry) :
  forall i, length results <= String.length (export_records i results).
Proof.
  induction results as [|r rest IH]; intros i; simpl; [lia |].
  rewrite str_length_app. specialize (IH (S i)).
  assert (1 <= String.length (record_text i r)); [| lia].
  unfold record_text. rewrite !str_app_assoc, str_length_app.
  pose proof (str_of_nat_aux_nonempty i i EmptyString) as Hne.
  unfold str_of_nat. destruct (str_of_nat_aux i i EmptyString); [discriminate | simpl; lia].
Qed.

(** The reader takes back every sequence of one-line records. *)
Lemma read_export_text (query : string) (results : list entry) :
  single_line query = true ->
  Forall (fun r => entry_single_line r = true) results ->
  read_export (export_text query results) = Some results.
Proof.
  intros Hquery Hall. unfold export_text, read_export.
  replace (("NepJol Search Results for: " +:+ query +:+ nl)
           +:+ (separator_line +:+ nl +:+ nl) +:+ export_records 1 results)
    with (("NepJol Search Results for: " +:+ query) +:+ nl
          +:+ separator_line +:+ nl
          +:+ EmptyString +:+ nl +:+ export_records 1 results)
    by (repeat rewrite str_app_assoc; reflexivity).
  rewrite read_line_app by (apply single_line_app; [reflexivity | assumption]).
  rewrite read_line_app by reflexivity.
  rewrite read_line_app by reflexivity.
  rewrite startswith_app, String.eqb_refl. simpl negb. cbv iota beta.
  change (true && true && true) with true. cbv iota.
  apply read_records_export; [| assumption].
  pose proof (export_records_length results 1). lia.
Qed.

Lemma write_results_run (filename : string) (results : list entry) :
  forall (i : nat) (c : string) (fs : gmap string string)
         (l : list (level * string)) (co : list string),
  write_results filename i results (mkState (<[filename := c]> fs) l co)
  = (Ok tt, mkState (<[filename := c +:+ export_records i results]> fs) l co).
Proof.
  induction results as [|r rest IH]; intros i c fs l co; simpl.
  - rewrite str_app_nil_r. reflexivity.
  - unfold bind, write_result, bind. rewrite !write_insert, IH.
    unfold record_text. repeat rewrite str_app_assoc. reflexivity.
Qed.

(** For a non-empty sequence and a file that can be opened,
    [save_to_file] leaves the export text in the file. *)
Lemma save_to_file_writes_export
    (W : World) (results : list entry) (query : string)
    (filename : option string) (st : State) :
  results <> [] ->
  open_succeeds W (results_filename query filename) = true ->
  files (snd (save_to_file W results query filename st))
  = <[results_filename query filename := export_text query results]> (files st).
Proof.
  intros Hne Hopen. unfold save_to_file.
  destruct results as [|r rest]; [congruence |].
  unfold try_except_Exception, bind, logger, print, ret, open_w. rewrite Hopen.
  cbn [files log console fst snd].
  rewrite write_insert. cbv iota beta.
  rewrite write_insert. cbv iota beta.
  rewrite write_results_run. cbn [files snd].
  unfold export_text.
  change (EmptyString +:+ "NepJol Search Results for: " +:+ query +:+ nl)
    with ("NepJol Search Results for: " +:+ query +:+ nl).
  rewrite (str_app_assoc ("NepJol Search Results for: " +:+ query +:+ nl)).
  reflexivity.
Qed.

(** C8 (amended): when the query and every field are free of line
    feeds, reading the export text gives back the records; and for a
    non-empty sequence that text is what [save_to_file] leaves in the file. *)
Theorem export_round_trip
    (W : World) (results : list entry) (query : string)
    (filename : option string) (st : State) :
  single_line query = true ->
  Forall (fun r => entry_single_line r = true) results ->
  read_export (export_text query results) = Some results
  /\ (results <> [] ->
      open_succeeds W (results_filename query filename) = true ->
      exists content,
        files (snd (save_to_file W results query filename st))
          !! results_filename query filename = Some content
        /\ read_export content = Some results).
Proof.
  intros Hquery Hall. split; [now apply read_export_text |].
  intros Hne Hopen. exists (export_text query results). split.
  - rewrite (save_to_file_writes_export W results query filename st Hne Hopen).
    apply lookup_insert_eq.
  - now apply read_export_text.
Qed.

Lemma export_round_trip_sample :
  read_export (export_text "rice" split_results) = Some split_results
  /\ exists content,
       files (snd (save_to_file pdf_world split_results "rice: 2020" None state0))
         !! "nepjol_results_rice 2020.txt" = Some content
       /\ read_export content = Some split_results.
Proof.
  assert (Hall : Forall (fun r => entry_single_line r = true) split_results)
    by (repeat constructor).
  split.
  - exact (proj1 (export_round_trip pdf_world split_results "rice" None state0
                    eq_refl Hall)).
  - apply (proj2 (export_round_trip pdf_world split_results "rice: 2020" None state0
                    eq_refl Hall)); [discriminate | reflexivity].
Defined.

(** C8 as stated fails: two different results sequences have the same
    export text, so no reader gives back every sequence; the reader of this
    file returns two records for the one that was written. *)
Lemma export_not_injective :
  export_text "rice" merged_results = export_text "rice" split_results
  /\ merged_results <> split_results
  /\ read_export (export_text "rice" merged_results) = Some split_results
  /\ ~ (exists reader : string -> option (list entry),
          forall results, reader (export_text "rice" results) = Some results).
Proof.
  assert (Hsame : export_text "rice" merged_results = export_text "rice" split_results)
    by (vm_compute; reflexivity).
  split; [exact Hsame |].
  split; [discriminate |].
  split; [vm_compute; reflexivity |].
  intros (reader & Hreader).
  pose proof (Hreader merged_results) as H1.
  pose proof (Hreader split_results) as H2.
  rewrite Hsame, H2 in H1. discriminate.
Qed.

(** * Further properties of the script *)

(** ** What the scraping functions leave untouched *)

Lemma quiet_ret {A : Type} (a : A) : quiet (ret a).
Proof. intros st. split; reflexivity. Qed.

Lemma quiet_raise {A : Type} (e : exn) : quiet (@raise A e).
Proof. intros st. split; reflexivity. Qed.

Lemma quiet_lift {A : Type} (r : result A) : quiet (lift r).
Proof. intros st. split; reflexivity. Qed.

Lemma quiet_logger (lv : level) (msg : string) : quiet (logger lv msg).
Proof. intros st. split; reflexivity. Qed.

Lemma quiet_bind {A B : Type} (m : M A) (k : A -> M B) :
  quiet m -> (forall a, quiet (k a)) -> quiet (bind m k).
Proof.
  intros Hm Hk st. unfold bind. destruct (Hm st) as [Hf0 Hc0].
  destruct (m st) as [[a|e] st1]; simpl in *.
  - destruct (Hk a st1) as [Hf Hc]. split; congruence.
  - split; assumption.
Qed.

Lemma quiet_try_except {A : Type} (body : M A) (h1 h2 : exn -> M A) :
  quiet body -> (forall e, quiet (h1 e)) -> (forall e, quiet (h2 e)) ->
  quiet (try_except body h1 h2).
Proof.
  intros Hb H1 H2 st. unfold try_except. destruct (Hb st) as [Hf0 Hc0].
  destruct (body st) as [[a|e] st1]; simpl in *; [split; assumption |].
  destruct (is_RequestException e);
    [destruct (H1 e st1) | destruct (H2 e st1)]; split; congruence.
Qed.

Lemma quiet_try_except_Exception {A : Type} (body : M A) (h : exn -> M A) :
  quiet body -> (forall e, quiet (h e)) -> quiet (try_except_Exception body h).
Proof.
  intros Hb Hh st. unfold try_except_Exception. destruct (Hb st) as [Hf0 Hc0].
  destruct (body st) as [[a|e] st1]; simpl in *; [split; assumption |].
  destruct (Hh e st1). split; congruence.
Qed.

Lemma quiet_get (W : World) (url : string) (params : list (string * string)) :
  quiet (get W url params).
Proof. unfold get. destruct (requests_get W url params); [apply quiet_raise | apply quiet_ret]. Qed.

Lemma quiet_raise_for_status (r : Response) : quiet (raise_for_status r).
Proof.
  unfold raise_for_status.
  destruct ((400 <=? status_code r) && (status_code r <? 600))%Z;
    [apply quiet_raise | apply quiet_ret].
Qed.

Ltac quiet_step :=
  first
    [ apply quiet_ret | apply quiet_raise | apply quiet_lift | apply quiet_logger
    | apply quiet_get | apply quiet_raise_for_status
    | apply quiet_bind; [| intros ?]
    | apply quiet_try_except; [| intros ? | intros ?]
    | apply quiet_try_except_Exception; [| intros ?]
    | match goal with
      | |- quiet (match ?x with _ => _ end) => destruct x
      | |- quiet (if ?b then _ else _) => destruct b
      end ].

Lemma quiet_parse_results (results : list node) :
  forall acc, quiet (parse_results results acc).
Proof.
  induction results as [|result rest IH]; intros acc; simpl.
  - apply quiet_ret.
  - apply quiet_bind; [| intros a; apply IH].
    unfold parse_result. repeat quiet_step.
Qed.

Lemma quiet_search_nepjol (W : World) (query : string) : quiet (search_nepjol W query).
Proof.
  unfold search_nepjol. repeat first [apply quiet_parse_results | quiet_step].
Qed.

Lemma quiet_find_pdf_link (W : World) (article_url : string) :
  quiet (find_pdf_link W article_url).
Proof. unfold find_pdf_link, py_urljoin. repeat quiet_step. Qed.

Lemma appends_log_ret {A : Type} (a : A) : appends_log (ret a).
Proof. intros st. exists []. simpl. now rewrite app_nil_r. Qed.

Lemma appends_log_raise {A : Type} (e : exn) : appends_log (@raise A e).
Proof. intros st. exists []. simpl. now rewrite app_nil_r. Qed.

Lemma appends_log_lift {A : Type} (r : result A) : appends_log (lift r).
Proof. intros st. exists []. simpl. now rewrite app_nil_r. Qed.

Lemma appends_log_logger (lv : level) (msg : string) : appends_log (logger lv msg).
Proof. intros st. exists [(lv, msg)]. reflexivity. Qed.

Lemma appends_log_bind {A B : Type} (m : M A) (k : A -> M B) :
  appends_log m -> (forall a, appends_log (k a)) -> appends_log (bind m k).
Proof.
  intros Hm Hk st. unfold bind. destruct (Hm st) as [r1 H1].
  destruct (m st) as [[a|e] st1]; simpl in *.
  - destruct (Hk a st1) as [r2 H2]. exists (r1 ++ r2).
    rewrite H2, H1. now rewrite app_assoc.
  - exists r1. exact H1.
Qed.

Lemma appends_log_try_except {A : Type} (body : M A) (h1 h2 : exn -> M A) :
  appends_log body -> (forall e, appends_log (h1 e)) -> (forall e, appends_log (h2 e)) ->
  appends_log (try_except body h1 h2).
Proof.
  intros Hb H1 H2 st. unfold try_except. destruct (Hb st) as [r1 Hr1].
  destruct (body st) as [[a|e] st1]; simpl in *; [exists r1; exact Hr1 |].
  destruct (is_RequestException e);
    [destruct (H1 e st1) as [r2 Hr2] | destruct (H2 e st1) as [r2 Hr2]];
    exists (r1 ++ r2); rewrite Hr2, Hr1; now rewrite app_assoc.
Qed.

Lemma appends_log_try_except_Exception {A : Type} (body : M A) (h : exn -> M A) :
  appends_log body -> (forall e, appends_log (h e)) ->
  appends_log (try_except_Exception body h).
Proof.
  intros Hb Hh st. unfold try_except_Exception. destruct (Hb st) as [r1 Hr1].
  destruct (body st) as [[a|e] st1]; simpl in *; [exists r1; exact Hr1 |].
  destruct (Hh e st1) as [r2 Hr2].
  exists (r1 ++ r2). rewrite Hr2, Hr1. now rewrite app_assoc.
Qed.

Lemma appends_log_get (W : World) (url : string) (params : list (string * string)) :
  appends_log (get W url params).
Proof.
  unfold get. destruct (requests_get W url params);
    [apply appends_log_raise | apply appends_log_ret].
Qed.

Lemma appends_log_raise_for_status (r : Response) : appends_log (raise_for_status r).
Proof.
  unfold raise_for_status.
  destruct ((400 <=? status_code r) && (status_code r <? 600))%Z;
    [apply appends_log_raise | apply appends_log_ret].
Qed.

Ltac appends_log_step :=
  first
    [ apply appends_log_ret | apply appends_log_raise | apply appends_log_lift
    | apply appends_log_logger | apply appends_log_get
    | apply appends_log_raise_for_status
    | apply appends_log_bind; [| intros ?]
    | apply appends_log_try_except; [| intros ? | intros ?]
    | apply appends_log_try_except_Exception; [| intros ?]
    | match goal with
      | |- appends_log (match ?x with _ => _ end) => destruct x
      | |- appends_log (if ?b then _ else _) => destruct b
      end ].

Lemma appends_log_parse_results (results : list node) :
  forall acc, appends_log (parse_results results acc).
Proof.
  induction results as [|result rest IH]; intros acc; simpl.
  - apply appends_log_ret.
  - apply appends_log_bind; [| intros a; apply IH].
    unfold parse_result. repeat appends_log_step.
Qed.

Lemma appends_log_search_nepjol (W : World) (query : string) :
  appends_log (search_nepjol W query).
Proof.
  unfold search_nepjol. repeat first [apply appends_log_parse_results | appends_log_step].
Qed.

Lemma appends_log_find_pdf_link (W : World) (article_url : string) :
  appends_log (find_pdf_link W article_url).
Proof. unfold find_pdf_link, py_urljoin. repeat appends_log_step. Qed.

(** [search_nepjol] opens no file and prints nothing on standard output:
    all it leaves behind are log records, appended to the log file of the
    run (and echoed on standard error); every other file is as it was. *)
Theorem search_nepjol_quiet (W : World) (query : string) (st : State) :
  files (snd (search_nepjol W query st)) = files st
  /\ console (snd (search_nepjol W query st)) = console st
  /\ exists records,
       log (snd (search_nepjol W query st)) = log st ++ records
       /\ (forall path, path <> run_log ->
             file_system (snd (search_nepjol W query st)) !! path
             = file_system st !! path)
       /\ file_system (snd (search_nepjol W query st)) !! run_log
          = Some (log_text (log st) +:+ log_text records)
       /\ standard_error (snd (search_nepjol W query st))
          = standard_error st +:+ log_text records.
Proof.
  destruct (quiet_search_nepjol W query st) as [Hf Hc].
  destruct (appends_log_search_nepjol W query st) as [records Hlog].
  split; [exact Hf |]. split; [exact Hc |].
  exists records. split; [exact Hlog |].
  destruct (file_system_frame _ _ _ Hf Hlog) as [Hother Hrun].
  split; [exact Hother |]. split; [exact Hrun |].
  unfold standard_error. now rewrite Hlog, log_text_app.
Qed.

(** [find_pdf_link] opens no file and prints nothing on standard output:
    all it leaves behind are log records, appended to the log file of the
    run (and echoed on standard error); every other file is as it was. *)
Theorem find_pdf_link_quiet (W : World) (article_url : string) (st : State) :
  files (snd (find_pdf_link W article_url st)) = files st
  /\ console (snd (find_pdf_link W article_url st)) = console st
  /\ exists records,
       log (snd (find_pdf_link W article_url st)) = log st ++ records
       /\ (forall path, path <> run_log ->
             file_system (snd (find_pdf_link W article_url st)) !! path
             = file_system st !! path)
       /\ file_system (snd (find_pdf_link W article_url st)) !! run_log
          = Some (log_text (log st) +:+ log_text records)
       /\ standard_error (snd (find_pdf_link W article_url st))
          = standard_error st +:+ log_text records.
Proof.
  destruct (quiet_find_pdf_link W article_url st) as [Hf Hc].
  destruct (appends_log_find_pdf_link W article_url st) as [records Hlog].
  split; [exact Hf |]. split; [exact Hc |].
  exists records. split; [exact Hlog |].
  destruct (file_system_frame _ _ _ Hf Hlog) as [Hother Hrun].
  split; [exact Hother |]. split; [exact Hrun |].
  unfold standard_error. now rewrite Hlog, log_text_app.
Qed.

(** When the viewer page has no download anchor, or the anchor has no
    href, [find_pdf_link] returns [None]. *)
Theorem find_pdf_link_no_download_anchor
    (W : World) (article_url : string) (st : State) (r1 r2 : Response)
    (soup1 soup2 tag1 : node) (href1 viewer_url : string) :
  requests_get W article_url [] = GetReturns r1 ->
  status_ok r1 ->
  BeautifulSoup W (text r1) = Ok soup1 ->
  find soup1 "a" (Some "obj_galley_link pdf") = Some tag1 ->
  tag_attrs tag1 !! "href" = Some href1 ->
  urljoin (url_check_bracketed_netloc W) (url_checknetloc_nfkc W) article_url href1
  = Ok viewer_url ->
  requests_get W viewer_url [] = GetReturns r2 ->
  status_ok r2 ->
  BeautifulSoup W (text r2) = Ok soup2 ->
  (find soup2 "a" (Some "download") = None
   \/ exists tag2, find soup2 "a" (Some "download") = Some tag2
                   /\ has_attr tag2 "href" = false) ->
  fst (find_pdf_link W article_url st) = Ok None.
Proof.
  intros Hget1 Hok1 Hsoup1 Hfind1 Hhref1 Hjoin1 Hget2 Hok2 Hsoup2 Hmissing.
  unfold find_pdf_link. run_script.
  rewrite Hget1, (raise_for_status_ok _ _ Hok1), Hsoup1, Hfind1.
  rewrite (has_attr_lookup _ _ _ Hhref1), (getitem_lookup _ _ _ Hhref1), Hjoin1.
  rewrite Hget2, (raise_for_status_ok _ _ Hok2), Hsoup2.
  destruct Hmissing as [-> | (tag2 & -> & ->)]; reflexivity.
Qed.

(** On the example site, asking for the link of the viewer page itself:
    its galley anchor is missing; asking with a viewer page that has no
    download anchor gives nothing either. *)
Lemma find_pdf_link_article_only_site :
  fst (find_pdf_link
         (world_of
            [("https://site/a/1", html_page 200 article_html);
             ("https://site/view/1", html_page 200 "<p>no file</p>")]
            [(article_html, document [anchor "obj_galley_link pdf" "/view/1" "PDF"])])
         "https://site/a/1" state0) = Ok None.
Proof.
  apply (find_pdf_link_no_download_anchor _ "https://site/a/1" state0
           (html_page 200 article_html) (html_page 200 "<p>no file</p>")
           (document [anchor "obj_galley_link pdf" "/view/1" "PDF"]) empty_document
           (anchor "obj_galley_link pdf" "/view/1" "PDF") "/view/1" "https://site/view/1");
    try (vm_compute; reflexivity).
  left. vm_compute. reflexivity.
Defined.

(** ** Links and text of the entries *)

Lemma block_link_not_root_relative (block : node) :
  startswith "/" (block_link block) = false.
Proof.
  unfold block_link.
  destruct (find block "a" None) as [a|]; [| reflexivity].
  destruct (tag_attrs a !! "href") as [href|]; [| reflexivity].
  destruct (startswith "/" href) eqn:Hslash; [reflexivity | exact Hslash].
Qed.

(** No entry of [search_nepjol] keeps a link that starts with a slash:
    such an href got the site origin in front. *)
Theorem search_nepjol_no_root_relative_link
    (W : World) (query : string) (st : State) (entries : list entry) (e : entry) :
  fst (search_nepjol W query st) = Ok entries ->
  In e entries ->
  startswith "/" (link e) = false.
Proof.
  intros Hrun Hin.
  destruct (search_nepjol_cases W query st) as [Hnil | (r & soup & _ & _ & _ & Hmap)].
  - rewrite Hnil in Hrun. injection Hrun as <-. destruct Hin.
  - rewrite Hmap in Hrun. injection Hrun as <-.
    apply in_map_iff in Hin as (block & <- & _).
    apply block_link_not_root_relative.
Qed.

Lemma search_nepjol_sample_no_root_relative_link :
  startswith "/" "https://www.nepjol.info/index.php/j/article/view/7" = false.
Proof.
  apply (search_nepjol_no_root_relative_link sample_world "rice" state0
           [mkEntry "Rice yield" "A. Sharma"
              "https://www.nepjol.info/index.php/j/article/view/7" "Vol 1";
            mkEntry "No title" "No authors" "No link" "Unknown source"]
           (mkEntry "Rice yield" "A. Sharma"
              "https://www.nepjol.info/index.php/j/article/view/7" "Vol 1")).
  - vm_compute. reflexivity.
  - left. reflexivity.
Defined.

Lemma first_char_lstrip_by (p : ascii -> bool) (s : string) (c : ascii) :
  first_char (lstrip_by p s) = Some c -> p c = false.
Proof.
  induction s as [|d s IH]; [discriminate |].
  cbn [lstrip_by]. destruct (p d) eqn:Hd; [exact IH |].
  intros H. injection H as <-. exact Hd.
Qed.

Lemma first_char_rstrip_by (p : ascii -> bool) (s : string) (c : ascii) :
  first_char (rstrip_by p s) = Some c -> first_char s = Some c.
Proof.
  destruct s as [|d s]; [discriminate |].
  cbn [rstrip_by]. destruct (rstrip_by p s).
  - destruct (p d); [discriminate | exact (fun H => H)].
  - exact (fun H => H).
Qed.

Lemma last_char_rstrip_by (p : ascii -> bool) (s : string) (c : ascii) :
  last_char (rstrip_by p s) = Some c -> p c = false.
Proof.
  induction s as [|d s IH]; [discriminate |].
  cbn [rstrip_by]. destruct (rstrip_by p s) as [|x r].
  - destruct (p d) eqn:Hd; [discriminate |].
    intros H. injection H as <-. exact Hd.
  - exact IH.
Qed.

Lemma trimmed_strip (s : string) : trimmed (strip s) = true.
Proof.
  unfold trimmed, strip, strip_by. apply andb_true_iff. split.
  - destruct (first_char (rstrip_by isspace (lstrip_by isspace s))) as [c|] eqn:Hc;
      [| reflexivity].
    apply first_char_rstrip_by, first_char_lstrip_by in Hc. now rewrite Hc.
  - destruct (last_char (rstrip_by isspace (lstrip_by isspace s))) as [c|] eqn:Hc;
      [| reflexivity].
    apply last_char_rstrip_by in Hc. now rewrite Hc.
Qed.

Lemma first_char_app (a b : string) :
  nonempty a = true -> first_char (a +:+ b) = first_char a.
Proof. destruct a; [discriminate | reflexivity]. Qed.

Lemma last_char_app (a b : string) :
  nonempty b = true -> last_char (a +:+ b) = last_char b.
Proof.
  intros Hb. induction a as [|c a IH]; [reflexivity |].
  change (String c a +:+ b) with (String c (a +:+ b)). cbn [last_char].
  destruct (a +:+ b) eqn:Hab; [| exact IH].
  destruct a; [| discriminate]. change (EmptyString +:+ b) with b in Hab.
  rewrite Hab in Hb. discriminate.
Qed.

Lemma trimmed_join (l : list string) :
  Forall (fun s => nonempty s = true /\ trimmed s = true) l ->
  trimmed (str_join EmptyString l) = true
  /\ (l <> [] -> nonempty (str_join EmptyString l) = true).
Proof.
  induction 1 as [|x rest [Hne Htrim] Hrest [IHt IHn]].
  - split; [reflexivity | congruence].
  - destruct rest as [|y rest'].
    + split; [exact Htrim | intros _; exact Hne].
    + cbn [str_join]. change (EmptyString +:+ str_join EmptyString (y :: rest'))
        with (str_join EmptyString (y :: rest')).
      assert (Hn : nonempty (str_join EmptyString (y :: rest')) = true)
        by (apply IHn; discriminate).
      split; [| intros _; now apply nonempty_app].
      unfold trimmed in *. rewrite (first_char_app _ _ Hne), (last_char_app _ _ Hn).
      apply andb_true_iff in Htrim as [Hfirst _].
      apply andb_true_iff in IHt as [_ Hlast].
      now rewrite Hfirst, Hlast.
Qed.

Lemma stripped_strings_trimmed (n : node) :
  Forall (fun s => nonempty s = true /\ trimmed s = true) (stripped_strings n).
Proof.
  unfold stripped_strings. induction (descendants n) as [|d l IH]; [constructor |].
  destruct d as [s | s | nm attributes cs]; cbn [omap list_omap]; try exact IH.
  cbn [List.filter]. destruct (nonempty (strip s)) eqn:Hne; [| exact IH].
  constructor; [| exact IH]. split; [exact Hne | apply trimmed_strip].
Qed.

Lemma trimmed_get_text_strip (n : node) : trimmed (get_text_strip n) = true.
Proof. apply trimmed_join, stripped_strings_trimmed. Qed.

(** The title, authors and source of every entry have no whitespace at
    either end: they come from [get_text(strip=True)] or are a sentinel. *)
Theorem search_nepjol_fields_trimmed
    (W : World) (query : string) (st : State) (entries : list entry) (e : entry) :
  fst (search_nepjol W query st) = Ok entries ->
  In e entries ->
  trimmed (title e) = true /\ trimmed (authors e) = true /\ trimmed (source e) = true.
Proof.
  intros Hrun Hin.
  destruct (search_nepjol_cases W query st) as [Hnil | (r & soup & _ & _ & _ & Hmap)].
  - rewrite Hnil in Hrun. injection Hrun as <-. destruct Hin.
  - rewrite Hmap in Hrun. injection Hrun as <-.
    apply in_map_iff in Hin as (block & <- & _).
    unfold summary_of, text_or; simpl.
    repeat split;
      match goal with |- trimmed (match ?x with _ => _ end) = true =>
        destruct x; [apply trimmed_get_text_strip | reflexivity] end.
Qed.

Lemma search_nepjol_sample_title_trimmed :
  trimmed "Rice yield" = true /\ trimmed "A. Sharma" = true /\ trimmed "Vol 1" = true.
Proof.
  apply (search_nepjol_fields_trimmed sample_world "rice" state0
           [mkEntry "Rice yield" "A. Sharma"
              "https://www.nepjol.info/index.php/j/article/view/7" "Vol 1";
            mkEntry "No title" "No authors" "No link" "Unknown source"]
           (mkEntry "Rice yield" "A. Sharma"
              "https://www.nepjol.info/index.php/j/article/view/7" "Vol 1")).
  - vm_compute. reflexivity.
  - left. reflexivity.
Defined.

(** ** Failed and successful downloads *)

Lemma download_file_failure_run
    (W : World) (url filename : string) (st : State) :
  transport_failure (requests_get W url []) \/ open_succeeds W filename = false ->
  fst (download_file W url filename st) = Ok false
  /\ files (snd (download_file W url filename st)) = files st.
Proof.
  intros Hfail. unfold download_file. run_script.
  destruct (requests_get W url []) as [e|r] eqn:Hget.
  - destruct (is_RequestException e); split; reflexivity.
  - unfold raise_for_status.
    destruct ((400 <=? status_code r) && (status_code r <? 600))%Z eqn:Hst;
      [split; reflexivity |].
    destruct Hfail as [Hfail | Hopen].
    + simpl in Hfail. rewrite (transport_failure_status _ Hfail) in Hst. discriminate.
    + simpl.
      destruct (str_contains "application/pdf" (default EmptyString (content_type r)));
        simpl; [| split; reflexivity].
      unfold open_w. rewrite Hopen. simpl. split; reflexivity.
Qed.



(** When the stream breaks after some chunks, [download_file] returns
    [False] and the destination file stays behind with the chunks received. *)
Theorem download_file_partial_file_on_stream_error
    (W : World) (url filename : string) (st : State) (r : Response) (e : exn) :
  requests_get W url [] = GetReturns r ->
  status_ok r ->
  str_contains "application/pdf" (default EmptyString (content_type r)) = true ->
  open_succeeds W filename = true ->
  iter_error r = Some e ->
  fst (download_file W url filename st) = Ok false
  /\ files (snd (download_file W url filename st))
     = <[filename := body_bytes (iter_content r)]> (files st).
Proof.
  intros Hget Hok Htype Hopen Herr.
  destruct (download_file_pdf_run W url filename st r Hget Hok Htype Hopen)
    as [Hres Hfiles].
  rewrite Hres, Hfiles, Herr. split; reflexivity.
Qed.

Lemma download_file_broken_stream :
  fst (download_file broken_stream_world "https://site/download/1/pdf" "paper.pdf" state0)
  = Ok false
  /\ files (snd (download_file broken_stream_world "https://site/download/1/pdf"
                   "paper.pdf" state0))
     = <["paper.pdf" := "%PDF-1.4 "]> ∅.
Proof.
  apply (download_file_partial_file_on_stream_error broken_stream_world
           "https://site/download/1/pdf" "paper.pdf" state0
           (mkResponse 200 (Some "application/pdf") EmptyString ["%PDF-1.4 "]
              (Some ConnectionError)) ConnectionError);
    reflexivity.
Defined.



(** ** Saving the results *)



Lemma save_to_file_value
    (W : World) (results : list entry) (query : string)
    (filename : option string) (st : State) :
  fst (save_to_file W results query filename st) = Ok tt.
Proof.
  unfold save_to_file. destruct results as [|r rest]; [reflexivity |].
  unfold bind at 1. unfold logger at 1. unfold try_except_Exception.
  match goal with |- context [match ?m ?s with _ => _ end] =>
    destruct (m s) as [[[]|e] st'] end; reflexivity.
Qed.


(** ** File names *)

Lemma str_forallb_char_in (p : ascii -> bool) (s : string) (c : ascii) :
  str_forallb p s = true -> p c = false -> char_in c s = false.
Proof.
  intros Hall Hc. induction s as [|d s IH]; [reflexivity |].
  cbn [str_forallb char_in] in *. apply andb_true_iff in Hall as [Hd Hs].
  apply orb_false_iff. split; [| now apply IH].
  destruct (Ascii.eqb c d) eqn:Heq; [| reflexivity].
  apply Ascii.eqb_eq in Heq. subst d. congruence.
Qed.

Lemma sanitize_safe (s : string) : str_forallb safe_char (sanitize s) = true.
Proof.
  unfold sanitize, rstrip.
  destruct (rstrip_by_suffix isspace (str_filter safe_char s)) as (ws & Heq & _).
  pose proof (str_forallb_filter safe_char s) as Hall.
  rewrite Heq, str_forallb_app in Hall.
  now apply andb_true_iff in Hall as [Hstem _].
Qed.

(** The names the script builds itself, [<title>.pdf] for a download and
    [nepjol_results_<query>.txt] for an export without given name, contain
    no slash and no backslash: the file lands in the current directory. *)
Theorem built_file_names_have_no_separator (article_title query : string) :
  char_in "/" (pdf_filename article_title) = false
  /\ char_in "\" (pdf_filename article_title) = false
  /\ char_in "/" (results_filename query None) = false
  /\ char_in "\" (results_filename query None) = false.
Proof.
  unfold pdf_filename, clean_title, results_filename.
  rewrite !char_in_app.
  rewrite (str_forallb_char_in _ _ "/"%char (sanitize_safe article_title) eq_refl).
  rewrite (str_forallb_char_in _ _ "\"%char (sanitize_safe article_title) eq_refl).
  rewrite (str_forallb_char_in _ _ "/"%char (sanitize_safe query) eq_refl).
  rewrite (str_forallb_char_in _ _ "\"%char (sanitize_safe query) eq_refl).
  repeat split.
Qed.

Lemma rstrip_by_all (p : ascii -> bool) (s : string) :
  str_forallb p s = true -> rstrip_by p s = EmptyString.
Proof.
  induction s as [|c s IH]; [reflexivity |].
  cbn [str_forallb rstrip_by]. intros H. apply andb_true_iff in H as [Hc Hs].
  now rewrite (IH Hs), Hc.
Qed.

Lemma str_filter_blank (s : string) :
  str_forallb (fun c => negb (safe_char c) || isspace c) s = true ->
  str_forallb isspace (str_filter safe_char s) = true.
Proof.
  induction s as [|c s IH]; [reflexivity |].
  cbn [str_forallb str_filter]. intros H. apply andb_true_iff in H as [Hc Hs].
  destruct (safe_char c); [| now apply IH].
  cbn [str_forallb]. simpl in Hc. now rewrite Hc, (IH Hs).
Qed.

(** A title made only of whitespace and of characters that the sanitiser
    drops gives the file name [.pdf]. *)
Theorem pdf_filename_of_unusable_title (article_title : string) :
  str_forallb (fun c => negb (safe_char c) || isspace c) article_title = true ->
  pdf_filename article_title = ".pdf".
Proof.
  intros H. unfold pdf_filename, clean_title, sanitize, rstrip.
  now rewrite (rstrip_by_all _ _ (str_filter_blank _ H)).
Qed.

Lemma pdf_filename_of_question_marks :
  pdf_filename "?? (!) " = ".pdf".
Proof. apply pdf_filename_of_unusable_title. reflexivity. Defined.

Lemma str_filter_id (p : ascii -> bool) (s : string) :
  str_forallb p s = true -> str_filter p s = s.
Proof.
  induction s as [|c s IH]; [reflexivity |].
  cbn [str_forallb str_filter]. intros H. apply andb_true_iff in H as [Hc Hs].
  now rewrite Hc, (IH Hs).
Qed.

Lemma rstrip_by_idempotent (p : ascii -> bool) (s : string) :
  rstrip_by p (rstrip_by p s) = rstrip_by p s.
Proof.
  induction s as [|c s IH]; [reflexivity |].
  cbn [rstrip_by]. destruct (rstrip_by p s) as [|d r] eqn:Hr.
  - destruct (p c) eqn:Hc; [reflexivity |]. cbn [rstrip_by]. now rewrite Hc.
  - change (rstrip_by p (String c (String d r)))
      with (match rstrip_by p (String d r) with
            | EmptyString => if p c then EmptyString else String c EmptyString
            | r' => String c r'
            end).
    now rewrite IH.
Qed.

(** Sanitising twice is sanitising once: a name that was built from a
    title is left as it is when it is sanitised again. *)
Theorem sanitize_idempotent (s : string) : sanitize (sanitize s) = sanitize s.
Proof.
  unfold sanitize at 1. rewrite (str_filter_id _ _ (sanitize_safe s)).
  unfold sanitize, rstrip. apply rstrip_by_idempotent.
Qed.

(** ** [display_results] *)

Lemma display_rows_run (results : list entry) :
  forall st,
  display_rows results st
  = (Ok tt,
     mkState (files st) (log st)
       (console st
        ++ flat_map (fun _ : entry =>
                       ["{i}. {result['title']}"; "   Authors: {result['authors']}";
                        "   Source: {result['source']}"; "   Link: {result['link']}"; ""])
             results)).
Proof.
  induction results as [|r rest IH]; intros st.
  - simpl. rewrite app_nil_r. now destruct st.
  - cbn [display_rows flat_map]. unfold bind, print. cbn [fst snd files log console].
    rewrite IH. cbn [files log console]. repeat rewrite <- app_assoc. reflexivity.
Qed.

(** [display_results] never raises and opens no file.  For an empty list
    it prints nothing and sends one warning to the log.  Otherwise it logs
    nothing, so that no file at all changes, and it makes four [print] calls
    for the header and five for each result. *)
Theorem display_results_lines (results : list entry) (query : string) (st : State) :
  fst (display_results results query st) = Ok tt
  /\ files (snd (display_results results query st)) = files st
  /\ (results = [] ->
      console (snd (display_results results query st)) = console st
      /\ log (snd (display_results results query st))
         = log st ++ [(WARNING, "No results to display")])
  /\ (results <> [] ->
      file_system (snd (display_results results query st)) = file_system st
      /\ exists printed,
           console (snd (display_results results query st)) = console st ++ printed
           /\ length printed = 4 + 5 * length results).
Proof.
  unfold display_results. destruct results as [|r rest].
  - simpl. split; [reflexivity |]. split; [reflexivity |].
    split; [intros _; split; reflexivity | congruence].
  - unfold bind, print. cbn [fst snd files log console].
    rewrite display_rows_run. cbn [fst snd files log console].
    split; [reflexivity |]. split; [reflexivity |]. split; [discriminate |].
    intros _. split; [reflexivity |].
    eexists. split; [repeat rewrite <- app_assoc; reflexivity |].
    cbn [app length]. rewrite flat_map_constant_length with (c := 5) by reflexivity.
    cbn [length]. lia.
Qed.

(** ** Numbers typed by the user *)







Lemma py_int_raises_ValueError (s : string) (e : exn) :
  py_int s = Raise e -> exists d, e = ValueError d.
Proof.
  unfold py_int.
  destruct (match rstrip_by int_space (lstrip_by int_space s) with
            | String "-" d => (true, d)
            | String "+" d => (false, d)
            | _ => (false, rstrip_by int_space (lstrip_by int_space s))
            end) as [negative digits].
  destruct (int_digits digits 0%Z false).
  - destruct (int_max_str_digits <? String.length (str_filter isdigit digits));
      [| discriminate].
    intros H. injection H as <-. eauto.
  - intros H. injection H as <-. eauto.
Qed.

(** ** Outcomes that depend on the network only *)

Lemma stateless_ret {A : Type} (a : A) : stateless (ret a).
Proof. intros st st'. reflexivity. Qed.

Lemma stateless_raise {A : Type} (e : exn) : stateless (@raise A e).
Proof. intros st st'. reflexivity. Qed.

Lemma stateless_lift {A : Type} (r : result A) : stateless (lift r).
Proof. intros st st'. reflexivity. Qed.

Lemma stateless_logger (lv : level) (msg : string) : stateless (logger lv msg).
Proof. intros st st'. reflexivity. Qed.

Lemma stateless_bind {A B : Type} (m : M A) (k : A -> M B) :
  stateless m -> (forall a, stateless (k a)) -> stateless (bind m k).
Proof.
  intros Hm Hk st st'. unfold bind. specialize (Hm st st').
  destruct (m st) as [[a|e] st1], (m st') as [[a'|e'] st1']; simpl in Hm;
    try discriminate; injection Hm as <-; [apply Hk | reflexivity].
Qed.

Lemma stateless_try_except {A : Type} (body : M A) (h1 h2 : exn -> M A) :
  stateless body -> (forall e, stateless (h1 e)) -> (forall e, stateless (h2 e)) ->
  stateless (try_except body h1 h2).
Proof.
  intros Hb H1 H2 st st'. unfold try_except. specialize (Hb st st').
  destruct (body st) as [[a|e] st1], (body st') as [[a'|e'] st1']; simpl in Hb;
    try discriminate; injection Hb as <-; [reflexivity |].
  destruct (is_RequestException e); [apply H1 | apply H2].
Qed.

Lemma stateless_try_except_Exception {A : Type} (body : M A) (h : exn -> M A) :
  stateless body -> (forall e, stateless (h e)) ->
  stateless (try_except_Exception body h).
Proof.
  intros Hb Hh st st'. unfold try_except_Exception. specialize (Hb st st').
  destruct (body st) as [[a|e] st1], (body st') as [[a'|e'] st1']; simpl in Hb;
    try discriminate; injection Hb as <-; [reflexivity | apply Hh].
Qed.

Lemma stateless_get (W : World) (url : string) (params : list (string * string)) :
  stateless (get W url params).
Proof.
  unfold get. destruct (requests_get W url params);
    [apply stateless_raise | apply stateless_ret].
Qed.

Lemma stateless_raise_for_status (r : Response) : stateless (raise_for_status r).
Proof.
  unfold raise_for_status.
  destruct ((400 <=? status_code r) && (status_code r <? 600))%Z;
    [apply stateless_raise | apply stateless_ret].
Qed.

Ltac stateless_step :=
  first
    [ apply stateless_ret | apply stateless_raise | apply stateless_lift
    | apply stateless_logger | apply stateless_get | apply stateless_raise_for_status
    | apply stateless_bind; [| intros ?]
    | apply stateless_try_except; [| intros ? | intros ?]
    | apply stateless_try_except_Exception; [| intros ?]
    | match goal with
      | |- stateless (match ?x with _ => _ end) => destruct x
      | |- stateless (if ?b then _ else _) => destruct b
      end ].



Lemma stateless_find_pdf_link (W : World) (article_url : string) :
  stateless (find_pdf_link W article_url).
Proof. unfold find_pdf_link, py_urljoin. repeat stateless_step. Qed.

(** The files that [download_file] leaves depend on the files it found,
    not on the log or the console. *)
Lemma download_file_files (W : World) (url filename : string) (st : State) :
  files (snd (download_file W url filename st))
  = files (snd (download_file W url filename (mkState (files st) [] []))).
Proof.
  destruct (requests_get W url []) as [e|r] eqn:Hget.
  { assert (Hfail : transport_failure (requests_get W url []))
      by (rewrite Hget; exact I).
    rewrite !(proj2 (download_file_failure_run W url filename _ (or_introl Hfail))).
    reflexivity. }
  destruct ((400 <=? status_code r) && (status_code r <? 600))%Z eqn:Hst.
  { assert (Hfail : transport_failure (requests_get W url [])).
    { rewrite Hget. simpl. apply andb_true_iff in Hst as [H1 H2].
      apply Z.leb_le in H1. apply Z.ltb_lt in H2. lia. }
    rewrite !(proj2 (download_file_failure_run W url filename _ (or_introl Hfail))).
    reflexivity. }
  destruct (str_contains "application/pdf" (default EmptyString (content_type r)))
    eqn:Htype.
  2:{ rewrite !(proj2 (download_file_non_pdf_run W url filename _ r Hget Htype)).
      reflexivity. }
  destruct (open_succeeds W filename) eqn:Hopen.
  2:{ rewrite !(proj2 (download_file_failure_run W url filename _ (or_intror Hopen))).
      reflexivity. }
  rewrite !(proj2 (download_file_pdf_run W url filename _ r Hget Hst Htype Hopen)).
  reflexivity.
Qed.

(** ** The main block *)

Lemma try_except_Exception_returns {A : Type} (body : M A) (h : exn -> M A) (st : State) :
  (forall e st', exists a, fst (h e st') = Ok a) ->
  exists a, fst (try_except_Exception body h st) = Ok a.
Proof.
  intros Hh. unfold try_except_Exception.
  destruct (body st) as [[a|e] st']; [exists a; reflexivity | apply Hh].
Qed.

Lemma main_returns_run (W : World) (stdin : list string) (st : State) :
  exists s, fst (main W stdin st) = Ok s.
Proof.
  unfold main. unfold bind at 1 2 3. unfold logger at 1 2 3. cbv iota beta.
  unfold bind at 1.
  match goal with |- context [try_except_Exception ?b ?h ?s] =>
    destruct (try_except_Exception_returns b h s) as [x Hx];
      [intros e st'; exists Ended; reflexivity |];
    destruct (try_except_Exception b h s) as [[y|e] st1]; simpl in Hx;
      [| discriminate]
  end.
  destruct y; [exists Ended | exists Awaiting]; reflexivity.
Qed.

(** The main block never raises: whatever is typed and whatever the
    network does, it ends or waits for the next line. *)
Theorem main_never_raises (W : World) (stdin : list string) (st : State) :
  exists s, fst (main W stdin st) = Ok s.
Proof. apply main_returns_run. Qed.






(** ** The selection loop *)




Lemma interact_non_number_run
    (W : World) (results : list entry) (query line : string)
    (rest : list string) (st : State) (e : exn) :
  str_lower (strip line) <> "q" ->
  str_lower (strip line) <> "s" ->
  py_int (strip line) = Raise e ->
  interact W results query (line :: rest) st
  = interact W results query rest
      (mkState (files st)
         (log st ++ [(INFO, "User choice: '{choice}'");
                     (WARNING, "Invalid input (not a number): '{choice}'")])
         (console st ++ [choice_prompt;
                         "Invalid input. Please enter a number, 's', or 'q'."])).
Proof.
  intros Hq Hs Hint.
  destruct (py_int_raises_ValueError _ _ Hint) as [d ->].
  apply String.eqb_neq in Hq. apply String.eqb_neq in Hs.
  cbn [interact]. unfold bind at 1 2. unfold print at 1. unfold logger at 1.
  cbv iota beta. rewrite Hq, Hs.
  unfold bind at 1. unfold selection, try_except_ValueError.
  unfold bind at 1. unfold lift at 1. rewrite Hint. cbv iota beta.
  unfold bind, logger, print, ret. cbv iota beta. cbn [files log console].
  repeat rewrite <- app_assoc. reflexivity.
Qed.

(** An entry that is neither [q], [s] nor a number is rejected with a
    message, and the loop asks again: the turn changes nothing else. *)
Theorem interact_rejects_non_number
    (W : World) (results : list entry) (query line : string)
    (rest : list string) (st : State) (e : exn) :
  str_lower (strip line) <> "q" ->
  str_lower (strip line) <> "s" ->
  py_int (strip line) = Raise e ->
  interact W results query (line :: rest) st
  = interact W results query rest
      (mkState (files st)
         (log st ++ [(INFO, "User choice: '{choice}'");
                     (WARNING, "Invalid input (not a number): '{choice}'")])
         (console st ++ [choice_prompt;
                         "Invalid input. Please enter a number, 's', or 'q'."])).
Proof. apply interact_non_number_run. Qed.

Lemma interact_rejects_word :
  interact session_world [session_entry] "rice" ["first"; "q"] state0
  = interact session_world [session_entry] "rice" ["q"]
      (mkState ∅
         [(INFO, "User choice: '{choice}'");
          (WARNING, "Invalid input (not a number): '{choice}'")]
         [choice_prompt; "Invalid input. Please enter a number, 's', or 'q'."]).
Proof.
  apply (interact_rejects_non_number session_world [session_entry] "rice" "first" ["q"]
           state0 (ValueError "invalid literal for int() with base 10"));
    [discriminate | discriminate | reflexivity].
Defined.

(** A number that is not between 1 and the number of results is rejected
    with a message, and the loop asks again: no article is fetched. *)
Theorem interact_rejects_out_of_range
    (W : World) (results : list entry) (query line : string)
    (rest : list string) (st : State) (n : Z) :
  py_int (strip line) = Ok n ->
  (n < 1 \/ Z.of_nat (length results) < n)%Z ->
  interact W results query (line :: rest) st
  = interact W results query rest
      (mkState (files st)
         (log st ++ [(INFO, "User choice: '{choice}'");
                     (WARNING, "Invalid article number: {choice}")])
         (console st ++ [choice_prompt; "Invalid number. Please try again."])).
Proof.
  intros Hint Hrange.
  assert (Hq : String.eqb (str_lower (strip line)) "q" = false).
  { apply String.eqb_neq. intros Heq.
    assert (Hs : strip line = "q" \/ strip line = "Q").
    { destruct (strip line) as [|c [|c' s']]; try discriminate.
      destruct c as [[] [] [] [] [] [] [] []]; try discriminate Heq; auto. }
    destruct Hs as [Hs | Hs]; rewrite Hs in Hint; discriminate. }
  assert (Hs : String.eqb (str_lower (strip line)) "s" = false).
  { apply String.eqb_neq. intros Heq.
    assert (Hs : strip line = "s" \/ strip line = "S").
    { destruct (strip line) as [|c [|c' s']]; try discriminate.
      destruct c as [[] [] [] [] [] [] [] []]; try discriminate Heq; auto. }
    destruct Hs as [Hs | Hs]; rewrite Hs in Hint; discriminate. }
  cbn [interact]. unfold bind at 1 2. unfold print at 1. unfold logger at 1.
  cbv iota beta. rewrite Hq, Hs.
  unfold bind at 1. unfold selection, try_except_ValueError.
  unfold bind at 1. unfold lift at 1. rewrite Hint. cbv iota beta zeta.
  replace ((0 <=? n - 1) && (n - 1 <? Z.of_nat (length results)))%Z with false.
  - unfold bind, logger, print, ret. cbv iota beta. cbn [files log console].
    repeat rewrite <- app_assoc. reflexivity.
  - symmetry. apply andb_false_iff.
    destruct Hrange; [left; apply Z.leb_gt | right; apply Z.ltb_ge]; lia.
Qed.

Lemma interact_rejects_seven :
  interact session_world [session_entry] "rice" ["7"; "q"] state0
  = interact session_world [session_entry] "rice" ["q"]
      (mkState ∅
         [(INFO, "User choice: '{choice}'");
          (WARNING, "Invalid article number: {choice}")]
         [choice_prompt; "Invalid number. Please try again."]).
Proof.
  apply (interact_rejects_out_of_range session_world [session_entry] "rice" "7" ["q"]
           state0 7%Z); [reflexivity | right; simpl; lia].
Defined.

Lemma interact_save_run
    (W : World) (results : list entry) (query line : string)
    (rest : list string) (st : State) :
  str_lower (strip line) = "s" ->
  exists st', interact W results query (line :: rest) st = (Ok Ended, st')
              /\ files st'
                 = files (snd (save_to_file W results query None
                                 (mkState (files st) [] []))).
Proof.
  intros Hs. cbn [interact]. unfold bind at 1 2. unfold print at 1. unfold logger at 1.
  cbv iota beta. rewrite Hs. cbn [String.eqb Ascii.eqb Bool.eqb].
  unfold bind at 1. unfold logger at 1. cbv iota beta. unfold bind at 1.
  match goal with |- context [save_to_file W results query None ?s] =>
    pose proof (save_to_file_value W results query None s) as Hval;
    assert (Hfiles : files (snd (save_to_file W results query None s))
                     = files (snd (save_to_file W results query None
                                     (mkState (files st) [] []))));
    [| destruct (save_to_file W results query None s) as [res st1] ]
  end.
  - destruct results as [|r rs]; [reflexivity |].
    destruct (open_succeeds W (results_filename query None)) eqn:Hopen.
    + rewrite !(save_to_file_writes_export W (r :: rs) query None _
                  ltac:(discriminate) Hopen).
      reflexivity.
    + unfold save_to_file, try_except_Exception, bind, logger, print, ret, open_w.
      rewrite Hopen. reflexivity.
  - simpl in Hval, Hfiles. subst res. eexists. split; [reflexivity | exact Hfiles].
Qed.

(** Typing [s] saves the results and ends the loop: for a results file
    that can be opened, the file holds the export text afterwards, and the
    lines typed after [s] are not read. *)
Theorem interact_save
    (W : World) (results : list entry) (query line : string)
    (rest : list string) (st : State) :
  str_lower (strip line) = "s" ->
  results <> [] ->
  open_succeeds W (results_filename query None) = true ->
  fst (interact W results query (line :: rest) st) = Ok Ended
  /\ files (snd (interact W results query (line :: rest) st))
     = <[results_filename query None := export_text query results]> (files st).
Proof.
  intros Hs Hne Hopen.
  destruct (interact_save_run W results query line rest st Hs) as (st' & -> & Hfiles).
  split; [reflexivity |]. simpl. rewrite Hfiles.
  exact (save_to_file_writes_export W results query None
           (mkState (files st) [] []) Hne Hopen).
Qed.

Lemma interact_save_session :
  fst (interact session_world [session_entry] "rice" ["S"; "1"] state0) = Ok Ended
  /\ files (snd (interact session_world [session_entry] "rice" ["S"; "1"] state0))
     = <["nepjol_results_rice.txt" := export_text "rice" [session_entry]]> ∅.
Proof.
  apply (interact_save session_world [session_entry] "rice" "S" ["1"] state0);
    [reflexivity | discriminate | reflexivity].
Defined.

Lemma download_file_value (W : World) (url filename : string) (st : State) :
  exists b, fst (download_file W url filename st) = Ok b.
Proof.
  unfold download_file. unfold bind at 1 2. unfold logger at 1 2. cbv iota beta.
  apply try_except_returns.
Qed.

(** The start of a turn whose choice is the number of a result: the
    article is selected and its link resolved. *)
Lemma selection_resolves
    (W : World) (results : list entry) (choice : string) (rest : list string)
    (st st0 : State) (n : Z) (e : entry) (found : option string)
    (k : entry -> option string -> M turn) :
  py_int choice = Ok n ->
  (1 <= n)%Z ->
  results !! Z.to_nat (n - 1) = Some e ->
  fst (find_pdf_link W (link e) st0) = Ok found ->
  exists st1,
    files st1 = files st
    /\ try_except_ValueError
         (n <- lift (py_int choice) ;;
          let index := (n - 1)%Z in
          if ((0 <=? index) && (index <? Z.of_nat (length results)))%Z then
            selected_article <- lift (match results !! Z.to_nat index with
                                      | Some r => Ok r
                                      | None => Raise (KeyError "list index out of range")
                                      end) ;;
            logger INFO "Selected article index: {index}, title: {selected_article['title'][:50]}..." ;;
            print "\nSelected article: {selected_article['title']}" ;;
            pdf_url <- find_pdf_link W (link selected_article) ;;
            k selected_article pdf_url
          else
            logger WARNING "Invalid article number: {choice}" ;;
            print "Invalid number. Please try again." ;;
            ret Again)
         (logger WARNING "Invalid input (not a number): '{choice}'" ;;
          print "Invalid input. Please enter a number, 's', or 'q'." ;;
          ret Again) st
       = match k e found st1 with
         | (Raise (ValueError _), st') =>
             (logger WARNING "Invalid input (not a number): '{choice}'" ;;
              print "Invalid input. Please enter a number, 's', or 'q'." ;;
              ret Again) st'
         | other => other
         end.
Proof.
  intros Hint Hn Hlookup Hfound.
  assert (Hrange : ((0 <=? n - 1) && (n - 1 <? Z.of_nat (length results)))%Z = true).
  { apply lookup_lt_Some in Hlookup. apply andb_true_iff.
    split; [apply Z.leb_le | apply Z.ltb_lt]; lia. }
  unfold try_except_ValueError. unfold bind at 1. unfold lift at 1.
  rewrite Hint. cbv iota beta zeta. rewrite Hrange, Hlookup.
  unfold bind at 1. unfold lift at 1. cbv iota beta.
  unfold bind at 1. unfold logger at 1. cbv iota beta.
  unfold bind at 1. unfold print at 1. cbv iota beta.
  unfold bind at 1.
  match goal with |- context [find_pdf_link W (link e) ?s] =>
    pose proof (stateless_find_pdf_link W (link e) s st0) as Hval;
    destruct (quiet_find_pdf_link W (link e) s) as [Hf _];
    destruct (find_pdf_link W (link e) s) as [res st1]
  end.
  simpl in Hval, Hf. rewrite Hfound in Hval. subst res.
  exists st1. split; [exact Hf | reflexivity].
Qed.

Lemma selection_download_run
    (W : World) (results : list entry) (choice answer : string) (rest : list string)
    (st st0 : State) (n : Z) (e : entry) (url : string) :
  py_int choice = Ok n ->
  (1 <= n)%Z ->
  results !! Z.to_nat (n - 1) = Some e ->
  fst (find_pdf_link W (link e) st0) = Ok (Some url) ->
  nonempty url = true ->
  exists st',
    selection W results choice (answer :: rest) st = (Ok AgainAfterAnswer, st')
    /\ files st'
       = if str_in (str_lower answer) ["y"; "yes"]
         then files (snd (download_file W url (pdf_filename (title e))
                            (mkState (files st) [] [])))
         else files st.
Proof.
  intros Hint Hn Hlookup Hfound Hurl. unfold selection.
  edestruct (selection_resolves W results choice (answer :: rest) st st0 n e (Some url))
    as (st1 & Hf & Heq); [exact Hint | exact Hn | exact Hlookup | exact Hfound |].
  rewrite Heq. clear Heq. rewrite Hurl.
  unfold bind at 1. unfold print at 1. cbv iota beta.
  unfold bind at 1. unfold print at 1. cbv iota beta.
  unfold bind at 1. unfold logger at 1. cbv iota beta.
  destruct (str_in (str_lower answer) ["y"; "yes"]).
  - unfold bind at 1. unfold logger at 1. cbv iota beta. unfold bind at 1.
    match goal with |- context [download_file W url ?f ?s] =>
      destruct (download_file_value W url f s) as [b Hb];
      pose proof (download_file_files W url f s) as Hfiles;
      destruct (download_file W url f s) as [res st2]
    end.
    simpl in Hb, Hfiles. subst res. cbn [files] in Hfiles. rewrite Hf in Hfiles.
    destruct b; unfold bind, logger, ret; cbv iota beta; cbn [negb];
      eexists; (split; [reflexivity | exact Hfiles]).
  - unfold ret. eexists. split; [reflexivity | exact Hf].
Qed.

(** When the chosen article has a PDF link and the answer to the download
    question is [y] or [yes] in any letter case, the PDF is downloaded
    to the file named after the article's title; the files are then exactly
    those that [download_file] leaves. *)
Theorem selection_downloads_on_yes
    (W : World) (results : list entry) (choice answer : string) (rest : list string)
    (st st0 : State) (n : Z) (e : entry) (url : string) :
  py_int choice = Ok n ->
  (1 <= n)%Z ->
  results !! Z.to_nat (n - 1) = Some e ->
  fst (find_pdf_link W (link e) st0) = Ok (Some url) ->
  nonempty url = true ->
  str_lower answer = "y" \/ str_lower answer = "yes" ->
  fst (selection W results choice (answer :: rest) st) = Ok AgainAfterAnswer
  /\ files (snd (selection W results choice (answer :: rest) st))
     = files (snd (download_file W url (pdf_filename (title e))
                     (mkState (files st) [] []))).
Proof.
  intros Hint Hn Hlookup Hfound Hurl Hyes.
  destruct (selection_download_run W results choice answer rest st st0 n e url
              Hint Hn Hlookup Hfound Hurl) as (st' & -> & Hfiles).
  split; [reflexivity |]. simpl. rewrite Hfiles.
  destruct Hyes as [-> | ->]; reflexivity.
Qed.

Lemma selection_downloads_rice :
  fst (selection session_world [session_entry] "1" ["YES"; "q"] state0)
  = Ok AgainAfterAnswer
  /\ files (snd (selection session_world [session_entry] "1" ["YES"; "q"] state0))
     = <["Rice yield.pdf" := "%PDF-1.4 body"]> ∅.
Proof.
  apply (selection_downloads_on_yes session_world [session_entry] "1" "YES" ["q"]
           state0 state0 1%Z session_entry "https://site/download/1/pdf");
    [reflexivity | lia | reflexivity | reflexivity | reflexivity | right; reflexivity].
Defined.






(** A line that [int] accepts is neither the quit nor the save command. *)
Lemma number_is_no_command (s : string) (n : Z) :
  py_int s = Ok n ->
  String.eqb (str_lower s) "q" = false /\ String.eqb (str_lower s) "s" = false.
Proof.
  intros Hint. split; apply String.eqb_neq; intros Heq.
  - assert (Hs : s = "q" \/ s = "Q").
    { destruct s as [|c [|c' s']]; try discriminate.
      destruct c as [[] [] [] [] [] [] [] []]; try discriminate Heq; auto. }
    destruct Hs as [Hs | Hs]; rewrite Hs in Hint; discriminate.
  - assert (Hs : s = "s" \/ s = "S").
    { destruct s as [|c [|c' s']]; try discriminate.
      destruct c as [[] [] [] [] [] [] [] []]; try discriminate Heq; auto. }
    destruct Hs as [Hs | Hs]; rewrite Hs in Hint; discriminate.
Qed.

(** The answer to the download question is used up by the turn: after
    it the loop reads the following line as the next choice, from a state
    whose files are those the download left (or the old ones when it was
    declined). *)
Theorem interact_after_download_question
    (W : World) (results : list entry) (query line answer : string)
    (rest : list string) (st st0 : State) (n : Z) (e : entry) (url : string) :
  py_int (strip line) = Ok n ->
  (1 <= n)%Z ->
  results !! Z.to_nat (n - 1) = Some e ->
  fst (find_pdf_link W (link e) st0) = Ok (Some url) ->
  nonempty url = true ->
  exists st',
    interact W results query (line :: answer :: rest) st
    = interact W results query rest st'
    /\ files st'
       = if str_in (str_lower answer) ["y"; "yes"]
         then files (snd (download_file W url (pdf_filename (title e))
                            (mkState (files st) [] [])))
         else files st.
Proof.
  intros Hint Hn Hlookup Hfound Hurl.
  destruct (number_is_no_command _ _ Hint) as [Hq Hs].
  cbn [interact]. unfold bind at 1 2. unfold print at 1. unfold logger at 1.
  cbv iota beta. rewrite Hq, Hs. unfold bind at 1.
  match goal with |- context [selection W results (strip line) (answer :: rest) ?s] =>
    destruct (selection_download_run W results (strip line) answer rest s st0 n e url
                Hint Hn Hlookup Hfound Hurl) as (st' & -> & Hfiles)
  end.
  exists st'. split; [reflexivity | exact Hfiles].
Qed.

Lemma interact_after_download_question_rice :
  exists st',
    interact session_world [session_entry] "rice" ["1"; "n"; "q"] state0
    = interact session_world [session_entry] "rice" ["q"] st'
    /\ files st'
       = if str_in (str_lower "n") ["y"; "yes"]
         then files (snd (download_file session_world "https://site/download/1/pdf"
                            (pdf_filename (title session_entry)) (mkState ∅ [] [])))
         else ∅.
Proof.
  apply (interact_after_download_question session_world [session_entry] "rice"
           "1" "n" ["q"] state0 state0 1%Z session_entry "https://site/download/1/pdf");
    [reflexivity | lia | reflexivity | reflexivity | reflexivity].
Defined.




Lemma display_results_nothing :
  (console (snd (display_results [] "rice" state0)) = []
   /\ log (snd (display_results [] "rice" state0)) = [(WARNING, "No results to display")])
  /\ (file_system (snd (display_results [session_entry] "rice" state0))
      = file_system state0
      /\ exists printed,
           console (snd (display_results [session_entry] "rice" state0)) = [] ++ printed
           /\ length printed = 4 + 5 * 1).
Proof.
  destruct (display_results_lines [] "rice" state0) as (_ & _ & Hempty & _).
  destruct (display_results_lines [session_entry] "rice" state0) as (_ & _ & _ & Hrows).
  split; [exact (Hempty eq_refl) | apply Hrows; discriminate].
Defined.


(** ** Numbers in front of the results *)


